(** * WoWTextureViewer: the upload / list / delete service, verified

    A shallow embedding of [src/main.py] (the imageio based service) and of
    [src/backend/main.py] (the Pillow based one).  A Python [str] is the
    byte sequence of its UTF-8 encoding ([string]), which is also how
    SQLite holds it.  [Py.lower] folds the ASCII letters: it is [str.lower]
    on ASCII text and SQLite's [LOWER] on any text; what Python does to
    other letters is outside the model.  The filesystem is a finite map
    from [pathlib] part lists to file contents; directories, symbolic
    links and the resolution of [..] are not modelled.  The [images] table
    is a list of rows in rowid order; the connection and its commit always
    succeed, a statement may fail. *)

From Stdlib Require Import Ascii String List Bool NArith Lia.
From Stdlib Require Import Sorting.Sorted Sorting.Permutation.
From stdpp Require Import base option list gmap strings.

(** ** Python string primitives *)
Module Py.

(** [c.lower()] for one character: [A]..[Z] go to [a]..[z]. *)
Definition lower_char (c : ascii) : ascii :=
  let n := N_of_ascii c in
  if ((65 <=? n) && (n <=? 90))%N then ascii_of_N (n + 32) else c.

(** [s.lower()] *)
Fixpoint lower (s : string) : string :=
  match s with
  | EmptyString => EmptyString
  | String c s' => String (lower_char c) (lower s')
  end.

(** [s.startswith(p)] *)
Fixpoint startswith (s p : string) {struct p} : bool :=
  match p, s with
  | EmptyString, _ => true
  | String _ _, EmptyString => false
  | String b p', String a s' => Ascii.eqb a b && startswith s' p'
  end.

(** [s.endswith(e)]: some tail of [s] is [e]. *)
Fixpoint endswith (s e : string) : bool :=
  String.eqb s e ||
  match s with
  | EmptyString => false
  | String _ s' => endswith s' e
  end.

(** [sub in s] *)
Fixpoint contains (s sub : string) : bool :=
  startswith s sub ||
  match s with
  | EmptyString => false
  | String _ s' => contains s' sub
  end.

(** [s.split(sep)] for a one-character separator; never the empty list. *)
Fixpoint split (sep : ascii) (s : string) : list string :=
  match s with
  | EmptyString => [EmptyString]
  | String c s' =>
      if Ascii.eqb c sep then EmptyString :: split sep s'
      else match split sep s' with
           | [] => [String c EmptyString]
           | p :: ps => String c p :: ps
           end
  end.

(** [l[-1]] on the result of a split. *)
Definition last_item (l : list string) : string := List.last l EmptyString.

(** [s[n:]] *)
Fixpoint slice_from (n : nat) (s : string) : string :=
  match n, s with
  | O, _ => s
  | S _, EmptyString => EmptyString
  | S n', String _ s' => slice_from n' s'
  end.

(** [s.lstrip(c)] for a one-character set. *)
Fixpoint lstrip (c : ascii) (s : string) : string :=
  match s with
  | String a s' => if Ascii.eqb a c then lstrip c s' else s
  | EmptyString => EmptyString
  end.

(** [sep.join(l)] *)
Fixpoint join (sep : string) (l : list string) : string :=
  match l with
  | [] => EmptyString
  | [x] => x
  | x :: rest => x +:+ sep +:+ join sep rest
  end.

(** Truthiness of a string: [if s:]. *)
Definition truthy (s : string) : bool :=
  match s with EmptyString => false | String _ _ => true end.

End Py.


(** ** [pathlib.PurePosixPath], by its [parts] *)
Module Pathlib.

(** A path is its tuple of parts; an absolute path has ["/"] as first part. *)
Definition Path : Type := list string.

(** The anchors of a POSIX path: the root, and the root of two slashes
    that POSIX sets apart. *)
Definition is_anchor (a : string) : bool :=
  String.eqb a "/" || String.eqb a "//".

Definition anchor (p : Path) : string :=
  match p with
  | a :: _ => if is_anchor a then a else ""
  | [] => ""
  end.

(** The parts a string contributes: empty pieces and ["."] are dropped,
    [".."] is kept (pathlib does not resolve it). *)
Definition components (s : string) : list string :=
  List.filter (fun c => negb (String.eqb c "") && negb (String.eqb c "."))
              (Py.split "/"%char s).

(** The root a string starts with: exactly two leading slashes are kept,
    one, or three and more, give the single slash. *)
Definition root_of (s : string) : string :=
  if Py.startswith s "//" && negb (Py.startswith s "///") then "//"
  else if Py.startswith s "/" then "/"
  else "".

(** [Path(s)] *)
Definition parse (s : string) : Path :=
  if Py.truthy (root_of s) then root_of s :: components s else components s.

(** [base / s]: an absolute right operand replaces the left one. *)
Definition joinpath (base : Path) (s : string) : Path :=
  if Py.startswith s "/" then parse s else base ++ components s.

Fixpoint strip_parts (p base : list string) : option (list string) :=
  match base, p with
  | [], _ => Some p
  | _ :: _, [] => None
  | b :: base', a :: p' => if String.eqb a b then strip_parts p' base' else None
  end.

(** [p.relative_to(base)]; [None] stands for the [ValueError]. *)
Definition relative_to (p base : Path) : option Path :=
  if String.eqb (anchor p) (anchor base) then strip_parts p base else None.

(** [p.as_posix()] *)
Definition as_posix (p : Path) : string :=
  match p with
  | [] => "."
  | a :: rest => if is_anchor a then a +:+ Py.join "/" rest
                 else Py.join "/" p
  end.

(** [p.name]: the last part, unless the path is only its anchor. *)
Definition name (p : Path) : string :=
  match p with
  | a :: rest => if is_anchor a then List.last rest "" else List.last p ""
  | [] => ""
  end.

End Pathlib.

Abbreviation Path := Pathlib.Path.
Abbreviation bytes := (list Byte.byte).

(** ** Exceptions and the state-and-exception monad of a request handler *)

Inductive Exn : Type :=
| HTTPException (status_code : nat) (detail : string)
| UnidentifiedImageError
| IndexError
| OSError
| IntegrityError
| OperationalError
| CodecFault.

Inductive Outcome (A : Type) : Type :=
| Return (a : A)
| Raise (e : Exn).
Arguments Return {A} a.
Arguments Raise {A} e.

(** The row of the [images] table, and the response model of the same shape. *)
Record ImageItem : Type := mkItem {
  id : string;
  name : string;
  width : nat;
  height : nat;
  url : string;
  created_at : string
}.

(** What a handler can touch: the table, the files on disk, and the number
    of identifiers drawn so far. *)
Record World : Type := mkWorld {
  table : list ImageItem;
  files : gmap Path bytes;
  tick : nat
}.

(** What the process does not control: the identifier and clock sources and
    the paths on which the filesystem faults.  A write that faults either
    was refused at [open] ([write_reached] is [None]: nothing is touched)
    or faulted after it, once the file was created or emptied: then
    [write_reached] tells how many of the bytes got to the disk. *)
Record Env : Type := mkEnv {
  uuid4_hex : nat -> string;
  utcnow_isoformat : nat -> string;
  write_faults : Path -> bool;
  write_reached : Path -> option nat;
  unlink_faults : Path -> bool;
  db_file_bytes : list ImageItem -> bytes
}.

Definition M (A : Type) : Type := World -> Outcome A * World.

Definition ret {A} (a : A) : M A := fun w => (Return a, w).
Definition raise {A} (e : Exn) : M A := fun w => (Raise e, w).
Definition bind {A B} (m : M A) (k : A -> M B) : M B :=
  fun w => match m w with
           | (Return a, w') => k a w'
           | (Raise e, w') => (Raise e, w')
           end.
(** [try: m except Exception as e: h e]; every [Exn] is an [Exception]. *)
Definition try_except {A} (m : M A) (h : Exn -> M A) : M A :=
  fun w => match m w with
           | (Return a, w') => (Return a, w')
           | (Raise e, w') => h e w'
           end.
Definition lift {A} (o : Outcome A) : M A := fun w => (o, w).

Notation "x <- m ;; k" := (bind m (fun x => k))
  (at level 20, m at level 99, k at level 200, only parsing).

(** ** The [images] table: the SQL statements the handlers issue *)
Module Sql.

(** [LOWER(x)]: SQLite folds the ASCII letters. *)
Definition LOWER (s : string) : string := Py.lower s.

(** SQLite reads a text up to its first NUL. *)
Fixpoint until_nul (s : string) : string :=
  match s with
  | EmptyString => EmptyString
  | String c s' => if Ascii.eqb c "000" then EmptyString
                   else String c (until_nul s')
  end.

(** The bytes of a UTF-8 character after its first: [10xxxxxx]; the first
    byte of a character of several bytes: [11xxxxxx]. *)
Definition is_continuation (c : ascii) : bool :=
  let n := N_of_ascii c in ((128 <=? n) && (n <? 192))%N.

Definition is_lead (c : ascii) : bool := (192 <=? N_of_ascii c)%N.

Fixpoint drop_continuation (t : string) : string :=
  match t with
  | EmptyString => EmptyString
  | String c t' => if is_continuation c then drop_continuation t' else t
  end.

(** The tails of [t] that begin at a character, and the empty tail;
    [inside] tells that the bytes in front continue a character. *)
Fixpoint char_starts (inside : bool) (t : string) : list string :=
  match t with
  | EmptyString => [EmptyString]
  | String c t' =>
      if inside && is_continuation c then char_starts true t'
      else t :: char_starts (is_lead c) t'
  end.

(** The pattern match of LIKE without an ESCAPE clause: [%] stands for any
    run of characters, [_] for any one character, every other byte for
    itself up to ASCII case. *)
Fixpoint match_from (pat txt : string) : bool :=
  match pat with
  | EmptyString => negb (Py.truthy txt)
  | String "%"%char pat' => List.existsb (match_from pat') (char_starts false txt)
  | String "_"%char pat' =>
      match txt with
      | EmptyString => false
      | String c t' =>
          match_from pat' (if is_lead c then drop_continuation t' else t')
      end
  | String c pat' =>
      match txt with
      | EmptyString => false
      | String d t' =>
          Ascii.eqb (Py.lower_char c) (Py.lower_char d) && match_from pat' t'
      end
  end.

(** [txt LIKE pat] *)
Definition LIKE (pat txt : string) : bool :=
  match_from (until_nul pat) (until_nul txt).

(** The longest pattern LIKE accepts, in bytes. *)
Definition MAX_LIKE_PATTERN_LENGTH : N := 50000.

(** [ORDER BY created_at DESC] under the BINARY collation: an insertion
    sort that keeps rows of equal [created_at] in rowid order. *)
Fixpoint insert_desc (r : ImageItem) (l : list ImageItem) : list ImageItem :=
  match l with
  | [] => [r]
  | y :: l' =>
      if String.leb (created_at y) (created_at r) then r :: l
      else y :: insert_desc r l'
  end.

Fixpoint order_by_created_at_desc (l : list ImageItem) : list ImageItem :=
  match l with
  | [] => []
  | r :: l' => insert_desc r (order_by_created_at_desc l')
  end.

(** [SELECT * FROM images ORDER BY created_at DESC] *)
Definition select_all (tbl : list ImageItem) : list ImageItem :=
  order_by_created_at_desc tbl.

(** [SELECT * FROM images WHERE LOWER(name) LIKE ? ORDER BY created_at DESC]:
    LIKE refuses too long a pattern at the first row it is asked about. *)
Definition select_like (tbl : list ImageItem) (like : string)
  : Outcome (list ImageItem) :=
  match tbl with
  | [] => Return []
  | _ :: _ =>
      if (MAX_LIKE_PATTERN_LENGTH <? N.of_nat (String.length like))%N
      then Raise OperationalError
      else Return (order_by_created_at_desc
                     (List.filter (fun r => LIKE like (LOWER (name r))) tbl))
  end.

(** [SELECT url FROM images WHERE id = ?] followed by [fetchone()] *)
Fixpoint select_url (tbl : list ImageItem) (i : string) : option string :=
  match tbl with
  | [] => None
  | r :: tbl' => if String.eqb (id r) i then Some (url r) else select_url tbl' i
  end.

(** [DELETE FROM images WHERE id = ?] *)
Definition delete_where_id (tbl : list ImageItem) (i : string) : list ImageItem :=
  List.filter (fun r => negb (String.eqb (id r) i)) tbl.

(** [INSERT INTO images ... VALUES ...]: [id] is the primary key. *)
Definition insert (tbl : list ImageItem) (r : ImageItem) : Outcome (list ImageItem) :=
  if List.existsb (fun x => String.eqb (id x) (id r)) tbl
  then Raise IntegrityError
  else Return (tbl ++ [r]).

End Sql.

(** ** Effects of a handler on the world *)

Definition set_table (tbl : list ImageItem) (w : World) : World :=
  mkWorld tbl (files w) (tick w).
Definition set_files (fs : gmap Path bytes) (w : World) : World :=
  mkWorld (table w) fs (tick w).

Section Effects.
Context (env : Env).

(** [uuid.uuid4().hex] *)
Definition uuid4 : M string :=
  fun w => (Return (uuid4_hex env (tick w)),
            mkWorld (table w) (files w) (S (tick w))).

(** [datetime.datetime.utcnow().isoformat()] *)
Definition utcnow : M string :=
  fun w => (Return (utcnow_isoformat env (tick w)), w).

(** [with open(p, "wb") as fp: fp.write(data)]: a fault after [open]
    leaves the file with the bytes that reached the disk. *)
Definition write_file (p : Path) (data : bytes) : M unit :=
  fun w => if write_faults env p then
             (Raise OSError,
              match write_reached env p with
              | Some n => set_files (<[p := take n data]> (files w)) w
              | None => w
              end)
           else (Return tt, set_files (<[p := data]> (files w)) w).

(** The files a request can see under a database path [dbp]: the stored
    images and the SQLite file itself. *)
Definition visible (dbp : Path) (w : World) : gmap Path bytes :=
  <[dbp := db_file_bytes env (table w)]> (files w).

(** [p.exists()] *)
Definition path_exists (dbp p : Path) : M bool :=
  fun w => (Return (bool_decide (is_Some (visible dbp w !! p))), w).

(** [p.unlink()]: fails on a missing file.  The SQLite file is kept apart
    from [files], so it counts as missing here. *)
Definition unlink (p : Path) : M unit :=
  fun w => if unlink_faults env p then (Raise OSError, w)
           else match files w !! p with
                | Some _ => (Return tt, set_files (delete p (files w)) w)
                | None => (Raise OSError, w)
                end.

(** [con.execute("INSERT ...")] *)
Definition db_insert (r : ImageItem) : M unit :=
  fun w => match Sql.insert (table w) r with
           | Return tbl => (Return tt, set_table tbl w)
           | Raise e => (Raise e, w)
           end.

Definition db_table : M (list ImageItem) := fun w => (Return (table w), w).

Definition db_delete (i : string) : M unit :=
  fun w => (Return tt, set_table (Sql.delete_where_id (table w) i) w).

End Effects.

(** A submitted part of the multipart form. *)
Record UploadFile : Type := mkUpload {
  filename : string;
  content : bytes
}.

(** [ext_of], over the elements of [SUPPORTED] in the order they are visited. *)
Fixpoint ext_of_in (supported : list string) (low : string) : string :=
  match supported with
  | [] => ""
  | e :: rest => if Py.endswith low e then e else ext_of_in rest low
  end.

(** [f.filename.split("/")[-1].split("\\")[-1]] *)
Definition base_name (fname : string) : string :=
  Py.last_item (Py.split "\"%char (Py.last_item (Py.split "/"%char fname))).

(** [GET /api/images]: shared verbatim by the two services.  The search is
    lowercased by [str.lower], which [Py.lower] is for ASCII searches. *)
Definition list_images (search : option string) : M (list ImageItem) :=
  tbl <- db_table ;;
  match search with
  | Some s =>
      if Py.truthy s then
        let like := "%" +:+ Py.lower s +:+ "%" in
        lift (Sql.select_like tbl like)
      else ret (Sql.select_all tbl)
  | None => ret (Sql.select_all tbl)
  end.

(** ** The image libraries, as far as the services call them *)

(** A numpy array as [imageio.imread] returns it. *)
Record ndarray : Type := mkArray {
  shape : list nat;
  samples : bytes
}.

Record ImageIO : Type := mkImageIO {
  imread : bytes -> Outcome ndarray;
  imwrite : string -> ndarray -> Outcome bytes
}.

(** A [PIL.Image.Image]. *)
Record PILImage : Type := mkPIL {
  im_format : option string;
  im_mode : string;
  im_width : nat;
  im_height : nat;
  im_pixels : bytes
}.

Record Pillow : Type := mkPillow {
  Image_open : bytes -> Outcome PILImage;
  convert_pixels : string -> PILImage -> Outcome bytes;
  Image_save : string -> PILImage -> Outcome bytes
}.

(** [im.convert(mode)]: a new image of the same size in the requested mode
    that carries no [format]. *)
Definition Image_convert (pil : Pillow) (mode : string) (im : PILImage)
  : Outcome PILImage :=
  match convert_pixels pil mode im with
  | Return px => Return (mkPIL None mode (im_width im) (im_height im) px)
  | Raise e => Raise e
  end.

(** Process configuration: where the module lives and the [IMAGE_DIR]
    environment variable. *)
Record Config : Type := mkConfig {
  BASE_DIR : Path;
  IMAGE_DIR_env : option string
}.

(** ** [src/main.py] *)
Module Main.
Section Service.
Context (cfg : Config) (env : Env) (io : ImageIO).

Definition STATIC_DIR : Path := BASE_DIR cfg ++ ["static"].

Definition IMAGE_DIR : Path :=
  match IMAGE_DIR_env cfg with
  | Some s => Pathlib.parse s
  | None => STATIC_DIR ++ ["images"]
  end.

Definition DB_PATH : Path := IMAGE_DIR ++ ["images.db"].

Definition SUPPORTED : list string := [".png"; ".jpg"; ".jpeg"; ".webp"; ".bmp"].

Definition ext_of (fname : string) : string :=
  ext_of_in SUPPORTED (Py.lower fname).

(** The body of the [try] in [to_png_bytes]. *)
Definition to_png_bytes_try (raw : bytes) : Outcome (bytes * nat * nat * string) :=
  match imread io raw with
  | Raise e => Raise e
  | Return img_array =>
      match shape img_array !! 0, shape img_array !! 1 with
      | Some h, Some w =>
          match imwrite io "PNG" img_array with
          | Return png => Return (png, w, h, "unknown")
          | Raise e => Raise e
          end
      | _, _ => Raise IndexError
      end
  end.

Definition to_png_bytes (raw : bytes) : Outcome (bytes * nat * nat * string) :=
  match to_png_bytes_try raw with
  | Return r => Return r
  | Raise _ => Raise UnidentifiedImageError
  end.

Definition build_public_url (file_path : Path) : string :=
  match Pathlib.relative_to file_path STATIC_DIR with
  | Some rel => "/static/" +:+ Pathlib.as_posix rel
  | None => "/api/file/" +:+ Pathlib.name file_path
  end.

(** The [try] block of the upload loop, for one file that passed [ext_of]. *)
Definition store_image (name : string) (f : UploadFile) : M ImageItem :=
  r <- lift (to_png_bytes (content f)) ;;
  let '(png, w, h, _) := r in
  iid <- uuid4 env ;;
  let file_path := IMAGE_DIR ++ [iid +:+ ".png"] in
  _ <- write_file env file_path png ;;
  let url := build_public_url file_path in
  created_at <- utcnow env ;;
  let item := mkItem iid name w h url created_at in
  _ <- db_insert item ;;
  ret item.

(** One turn of the loop: [None] is a [continue]. *)
Definition upload_one (f : UploadFile) : M (option ImageItem) :=
  let name := base_name (filename f) in
  if negb (Py.truthy (ext_of name)) then ret None
  else try_except (item <- store_image name f ;; ret (Some item))
         (fun e => match e with
                   | UnidentifiedImageError => ret None
                   | _ => ret None
                   end).

Fixpoint upload_loop (fs : list UploadFile) (out : list ImageItem)
  : M (list ImageItem) :=
  match fs with
  | [] => ret out
  | f :: rest =>
      r <- upload_one f ;;
      upload_loop rest (match r with Some item => out ++ [item] | None => out end)
  end.

(** [POST /api/upload] *)
Definition upload (fs : list UploadFile) : M (list ImageItem) :=
  match fs with
  | [] => raise (HTTPException 400 "No files provided.")
  | _ :: _ => upload_loop fs []
  end.

(** The path [delete_image] works out from a stored url. *)
Definition path_of_url (u : string) : option Path :=
  if Py.startswith u "/static/"
  then Some (Pathlib.joinpath STATIC_DIR (Py.slice_from (String.length "/static/") u))
  else if Py.startswith u "/api/file/"
  then Some (Pathlib.joinpath IMAGE_DIR (Py.last_item (Py.split "/"%char u)))
  else None.

Definition remove_file (u : string) : M unit :=
  try_except
    (match path_of_url u with
     | Some path =>
         there <- path_exists env DB_PATH path ;;
         if there then unlink env path else ret tt
     | None => ret tt
     end)
    (fun _ => ret tt).

(** [DELETE /api/images/{image_id}]; the value stands for [{"ok": True}]. *)
Definition delete_image (image_id : string) : M bool :=
  tbl <- db_table ;;
  match Sql.select_url tbl image_id with
  | None => raise (HTTPException 404 "Not found")
  | Some u =>
      _ <- db_delete image_id ;;
      _ <- remove_file u ;;
      ret true
  end.

(** [GET /api/file/{name}]: the body and media type of the [FileResponse]. *)
Definition serve_file (name : string) : M (bytes * string) :=
  fun w =>
    let path := Pathlib.joinpath IMAGE_DIR name in
    match visible env DB_PATH w !! path with
    | None => (Raise (HTTPException 404 "Not found"), w)
    | Some body => (Return (body, "image/png"), w)
    end.

End Service.
End Main.

(** ** [src/backend/main.py] *)
Module Backend.
Section Service.
Context (cfg : Config) (env : Env) (pil : Pillow).

Definition STATIC_DIR : Path := BASE_DIR cfg ++ ["static"].
Definition IMG_DIR : Path := STATIC_DIR ++ ["images"].
Definition DB_PATH : Path := BASE_DIR cfg ++ ["images.db"].

Definition SUPPORTED : list string :=
  [".blp"; ".tga"; ".png"; ".jpg"; ".jpeg"; ".webp"; ".bmp"].

Definition ext_of (fname : string) : string :=
  ext_of_in SUPPORTED (Py.lower fname).

Definition to_png_bytes (raw : bytes) : Outcome (bytes * nat * nat * string) :=
  match Image_open pil raw with
  | Raise e => Raise e
  | Return im0 =>
      let fmt := match im_format im0 with
                 | Some f => if Py.truthy f then f else "?"
                 | None => "?"
                 end in
      match Image_convert pil "RGBA" im0 with
      | Raise e => Raise e
      | Return im =>
          match Image_save pil "PNG" im with
          | Return png => Return (png, im_width im, im_height im, fmt)
          | Raise e => Raise e
          end
      end
  end.

Definition store_image (name : string) (f : UploadFile) : M ImageItem :=
  r <- lift (to_png_bytes (content f)) ;;
  let '(png, w, h, _) := r in
  iid <- uuid4 env ;;
  let file_path := IMG_DIR ++ [iid +:+ ".png"] in
  _ <- write_file env file_path png ;;
  let url := "/static/images/" +:+ iid +:+ ".png" in
  created_at <- utcnow env ;;
  let item := mkItem iid name w h url created_at in
  _ <- db_insert item ;;
  ret item.

Definition upload_one (f : UploadFile) : M (option ImageItem) :=
  let name := base_name (filename f) in
  let ext := ext_of name in
  if negb (Py.truthy ext) then ret None
  else try_except (item <- store_image name f ;; ret (Some item))
         (fun e => match e with
                   | UnidentifiedImageError => ret None
                   | _ => ret None
                   end).

Fixpoint upload_loop (fs : list UploadFile) (out : list ImageItem)
  : M (list ImageItem) :=
  match fs with
  | [] => ret out
  | f :: rest =>
      r <- upload_one f ;;
      upload_loop rest (match r with Some item => out ++ [item] | None => out end)
  end.

Definition upload (fs : list UploadFile) : M (list ImageItem) :=
  match fs with
  | [] => raise (HTTPException 400 "No files provided.")
  | _ :: _ => upload_loop fs []
  end.

Definition remove_file (u : string) : M unit :=
  try_except
    (let path := Pathlib.joinpath (BASE_DIR cfg) (Py.lstrip "/"%char u) in
     there <- path_exists env DB_PATH path ;;
     if there then unlink env path else ret tt)
    (fun _ => ret tt).

Definition delete_image (image_id : string) : M bool :=
  tbl <- db_table ;;
  match Sql.select_url tbl image_id with
  | None => raise (HTTPException 404 "Not found")
  | Some u =>
      _ <- db_delete image_id ;;
      _ <- remove_file u ;;
      ret true
  end.

End Service.
End Backend.

(** ** Notions the statements use *)

(** A decoded array carries an alpha channel when its last of three axes
    has two (gray, alpha) or four (red, green, blue, alpha) entries. *)
Definition has_alpha_channel (a : ndarray) : bool :=
  match shape a with
  | [_; _; c] => Nat.eqb c 2 || Nat.eqb c 4
  | _ => false
  end.

(** [p] lies beneath [root] (or is [root]): what [relative_to] accepts. *)
Definition beneath (root p : Path) : Prop := exists rel, p = root ++ rel.

(** ASCII text without NUL: every byte is between 1 and 127. *)
Fixpoint ascii_text (s : string) : bool :=
  match s with
  | EmptyString => true
  | String c s' =>
      ((1 <=? N_of_ascii c) && (N_of_ascii c <? 128))%N && ascii_text s'
  end.

(** The characters [LIKE] does not take literally. *)
Fixpoint wildcard_free (s : string) : bool :=
  match s with
  | EmptyString => true
  | String c s' =>
      negb (Ascii.eqb c "%") && negb (Ascii.eqb c "_") && wildcard_free s'
  end.

(** Rows in non-increasing [created_at] order. *)
Definition newest_first (l : list ImageItem) : Prop :=
  StronglySorted (fun a b => String.leb (created_at b) (created_at a) = true) l.

(** What makes an uploaded file a valid image for the imageio service: the
    codec reads it as an array with a height and a width and writes that
    array as PNG. *)
Definition valid_image (io : ImageIO) (f : UploadFile) : Prop :=
  exists arr h w png,
    imread io (content f) = Return arr /\
    shape arr !! 0 = Some h /\ shape arr !! 1 = Some w /\
    imwrite io "PNG" arr = Return png.

(** The identifiers the next [n] draws yield, from draw number [t] on. *)
Fixpoint next_ids (env : Env) (t n : nat) : list string :=
  match n with
  | O => []
  | S n' => uuid4_hex env t :: next_ids env (S t) n'
  end.

(** The identifiers are fresh: distinct from each other and from the keys
    already in the table. *)
Definition fresh_ids (env : Env) (w : World) (n : nat) : Prop :=
  NoDup (next_ids env (tick w) n) /\
  Forall (fun i => i ∉ List.map id (table w)) (next_ids env (tick w) n).


(** A handler that answers every non-empty batch with a list. *)
Definition answers_every_batch (handler : list UploadFile -> M (list ImageItem))
  : Prop :=
  forall fs w, fs <> [] -> exists out w', handler fs w = (Return out, w').

(** What removing the backing file may do to a world: nothing to the table
    or the draw counter, and to the files at most one removal. *)
Definition file_maybe_removed (w w' : World) : Prop :=
  table w' = table w /\ tick w' = tick w /\
  (files w' = files w \/ exists p, files w' = delete p (files w)).

(** What a delete handler owes for the id [i] in the world [w].  A known
    id: the handler answers ok, after which the lookup by id finds nothing,
    no listing shows the id, and a second delete is answered 404.  An
    unknown id: 404, and the world is as before. *)
Definition deletes_cleanly (delete_image : string -> M bool)
    (i : string) (w : World) : Prop :=
  (i ∈ List.map id (table w) ->
   exists w', delete_image i w = (Return true, w') /\
     Sql.select_url (table w') i = None /\
     (forall search out w'',
         list_images search w' = (Return out, w'') -> i ∉ List.map id out) /\
     delete_image i w' = (Raise (HTTPException 404 "Not found"), w')) /\
  (i ∉ List.map id (table w) ->
   delete_image i w = (Raise (HTTPException 404 "Not found"), w)).

(** A delete that answers ok with the row gone, whatever became of the
    file: it is still there, or it is the one file removed. *)
Definition deleted_despite_file (delete_image : string -> M bool)
    (i : string) (w : World) : Prop :=
  exists w', delete_image i w = (Return true, w') /\
    table w' = Sql.delete_where_id (table w) i /\
    (i ∉ List.map id (table w')) /\
    (files w' = files w \/ exists p, files w' = delete p (files w)).

(** The record [item] describes the file [f]: its base name and the height
    and width of the array the codec reads from its bytes. *)
Definition describes (io : ImageIO) (f : UploadFile) (item : ImageItem) : Prop :=
  name item = base_name (filename f) /\
  exists arr, imread io (content f) = Return arr /\
    shape arr !! 0 = Some (height item) /\ shape arr !! 1 = Some (width item).

(** A path part as a file name should be: not empty, not [.], no slash. *)
Definition plain_part (s : string) : bool :=
  Py.truthy s && negb (String.eqb s ".") && negb (Py.contains s "/").

(** The counterpart of [valid_image] for the Pillow service: the library
    opens the bytes, converts the image to RGBA and saves it as PNG. *)
Definition valid_pil_image (pil : Pillow) (f : UploadFile) : Prop :=
  exists im0 im png,
    Image_open pil (content f) = Return im0 /\
    Image_convert pil "RGBA" im0 = Return im /\
    Image_save pil "PNG" im = Return png.

(** The record [item] describes the file [f] as the Pillow service sees it:
    its base name, the size of the opened image, the url under
    [/static/images]. *)
Definition describes_pil (pil : Pillow) (f : UploadFile) (item : ImageItem) : Prop :=
  name item = base_name (filename f) /\
  url item = "/static/images/" +:+ id item +:+ ".png" /\
  exists im0, Image_open pil (content f) = Return im0 /\
    width item = im_width im0 /\ height item = im_height im0.

(** The rows a search keeps, as the statement of [list_images] has it. *)
Definition like_filter (s : string) (r : ImageItem) : bool :=
  Sql.LIKE ("%" +:+ Py.lower s +:+ "%") (Sql.LOWER (name r)).

(** No extension of the list ends another one. *)
Definition no_suffix_pair (l : list string) : Prop :=
  Forall (fun e1 => Forall (fun e2 => Py.endswith e1 e2 = true -> e1 = e2) l) l.

(** The path each service writes the image of identifier [i] to. *)
Definition main_path (cfg : Config) (i : string) : Path :=
  Main.IMAGE_DIR cfg ++ [i +:+ ".png"].
Definition backend_path (cfg : Config) (i : string) : Path :=
  Backend.IMG_DIR cfg ++ [i +:+ ".png"].

(** The facts an upload loop keeps, for the loop of either service:
    [path] is where the service stores an identifier's image. *)
Definition batch_facts (path : string -> Path) (fs : list UploadFile)
    (w : World) (out : list ImageItem) (w' : World) : Prop :=
  table w' = table w ++ out /\
  sublist (List.map name out) (List.map (fun f => base_name (filename f)) fs) /\
  NoDup (List.map id out) /\
  Forall (fun item => id item ∉ List.map id (table w)) out /\
  Forall (fun item => is_Some (files w' !! path (id item))) out /\
  (forall p, is_Some (files w !! p) -> is_Some (files w' !! p)).

(** ** A small concrete world, to run the services on *)
Module Sample.

Definition byte_of (n : nat) : Byte.byte :=
  match Byte.of_nat n with Some b => b | None => Byte.x00 end.

(** A toy container: height, width, channel count, then the samples.  A
    channel count of zero stands for a gray image of two axes. *)
Definition sample_imread (raw : bytes) : Outcome ndarray :=
  match raw with
  | h :: w :: c :: px =>
      let dims := [Byte.to_nat h; Byte.to_nat w] in
      Return (mkArray (if Nat.eqb (Byte.to_nat c) 0 then dims
                       else dims ++ [Byte.to_nat c]) px)
  | _ => Raise CodecFault
  end.

Definition sample_imwrite (fmt : string) (a : ndarray) : Outcome bytes :=
  Return (String.list_byte_of_string fmt ++ List.map byte_of (shape a) ++ samples a).

Definition io : ImageIO := mkImageIO sample_imread sample_imwrite.

Definition sample_open (raw : bytes) : Outcome PILImage :=
  match raw with
  | h :: w :: c :: px =>
      Return (mkPIL (Some "BMP") (if Nat.eqb (Byte.to_nat c) 4 then "RGBA" else "RGB")
                    (Byte.to_nat w) (Byte.to_nat h) px)
  | _ => Raise UnidentifiedImageError
  end.

Definition pil : Pillow :=
  mkPillow sample_open
           (fun _ im => Return (im_pixels im))
           (fun fmt im => Return (String.list_byte_of_string fmt ++
                                  [byte_of (im_height im); byte_of (im_width im)] ++
                                  im_pixels im)).

Definition cfg : Config := mkConfig ["/"; "srv"; "app"] None.
Definition cfg_disk : Config := mkConfig ["/"; "srv"; "app"] (Some "/data/images").

Definition ident (n : nat) : string :=
  String (ascii_of_nat (97 + n)) "0f3c".

Definition clock (n : nat) : string :=
  "2024-05-0" +:+ String (ascii_of_nat (49 + n)) "T10:00:00".

Definition env : Env :=
  mkEnv ident clock (fun _ => false) (fun _ => None) (fun _ => false)
        (fun _ => [Byte.x53; Byte.x51; Byte.x4c]).

(** The same environment on a full disk: every write faults after [open]
    with nothing written, every unlink is refused. *)
Definition env_faulty : Env :=
  mkEnv ident clock (fun _ => true) (fun _ => Some 0) (fun _ => true)
        (fun _ => [Byte.x53; Byte.x51; Byte.x4c]).

Definition empty_world : World := mkWorld [] ∅ 0.

(** A 2 by 3 image of three channels, and bytes no codec reads. *)
Definition rgb_2x3 : bytes := [Byte.x02; Byte.x03; Byte.x03; Byte.xff].
Definition junk : bytes := [Byte.x00].

Definition icon : UploadFile := mkUpload "C:\tex\Icon.PNG" rgb_2x3.
Definition photo : UploadFile := mkUpload "shots/photo.jpeg" rgb_2x3.
Definition notes : UploadFile := mkUpload "notes.txt" rgb_2x3.
Definition broken : UploadFile := mkUpload "broken.png" junk.

Definition row_a : ImageItem :=
  mkItem "a0f3c" "a.png" 3 2 "/static/images/a0f3c.png" "2024-05-01T10:00:00".
Definition row_b : ImageItem :=
  mkItem "b0f3c" "Wall_Stone.PNG" 3 2 "/static/images/b0f3c.png" "2024-05-02T10:00:00".

Definition stocked : World :=
  mkWorld [row_a; row_b]
          {[ ["/"; "srv"; "app"; "static"; "images"; "a0f3c.png"] := rgb_2x3 ]} 2.


(** A mixed batch, the records both services answer it with, and the
    worlds they leave. *)
Definition batch : list UploadFile := [icon; notes; broken; photo].

Definition batch_out : list ImageItem :=
  [mkItem "a0f3c" "Icon.PNG" 3 2 "/static/images/a0f3c.png" "2024-05-02T10:00:00";
   mkItem "b0f3c" "photo.jpeg" 3 2 "/static/images/b0f3c.png" "2024-05-03T10:00:00"].

Definition after_batch : World := snd (Main.upload cfg env io batch empty_world).

Definition after_batch_pil : World :=
  snd (Backend.upload cfg env pil batch empty_world).


(** One file uploaded to each service, on the image directory under
    [static] and on a separate volume. *)
Definition icon_record : ImageItem :=
  mkItem "a0f3c" "Icon.PNG" 3 2 "/static/images/a0f3c.png" "2024-05-02T10:00:00".

Definition icon_record_disk : ImageItem :=
  mkItem "a0f3c" "Icon.PNG" 3 2 "/api/file/a0f3c.png" "2024-05-02T10:00:00".

Definition after_icon : World := snd (Main.upload cfg env io [icon] empty_world).

Definition after_icon_disk : World :=
  snd (Main.upload cfg_disk env io [icon] empty_world).

Definition after_icon_pil : World :=
  snd (Backend.upload cfg env pil [icon] empty_world).

End Sample.

(** * Properties *)

(** ** The model on small inputs *)

Example lower_mixed : Py.lower "Tex/ICON.PnG" = "tex/icon.png".
Proof. reflexivity. Qed.

Example split_slash : Py.split "/" "a//b.png" = ["a"; ""; "b.png"].
Proof. reflexivity. Qed.

Example base_name_windows : base_name "C:\tex\Icon.PNG" = "Icon.PNG".
Proof. reflexivity. Qed.

Example base_name_trailing_slash : base_name "dir/" = "".
Proof. reflexivity. Qed.

Example ext_of_upper : Main.ext_of "Icon.PNG" = ".png".
Proof. reflexivity. Qed.

Example ext_of_blp :
  Main.ext_of "stone.blp" = "" /\ Backend.ext_of "stone.blp" = ".blp".
Proof. split; reflexivity. Qed.

Example joinpath_relative :
  Pathlib.joinpath ["/"; "srv"; "static"] "images/./a.png" =
  ["/"; "srv"; "static"; "images"; "a.png"].
Proof. reflexivity. Qed.

Example relative_to_outside :
  Pathlib.relative_to ["/"; "data"; "images"; "a.png"] ["/"; "srv"; "static"] = None.
Proof. reflexivity. Qed.

Example parse_two_slashes :
  Pathlib.parse "//srv/a" = ["//"; "srv"; "a"] /\
  Pathlib.parse "///srv/a" = ["/"; "srv"; "a"].
Proof. split; reflexivity. Qed.

Example like_underscore : Sql.LIKE "%_%" "a.png" = true.
Proof. reflexivity. Qed.

Example like_literal : Sql.LIKE "%stone%" "wall_stone.png" = true.
Proof. reflexivity. Qed.

(** What follows a NUL in a name is out of reach of LIKE. *)
Example like_stops_at_nul :
  Sql.LIKE "%ab%" (String "x" (String "000" "ab")) = false.
Proof. reflexivity. Qed.

(** [_] stands for one character, of however many bytes. *)
Example like_underscore_is_a_character :
  Sql.LIKE "_.png" "é.png" = true /\ Sql.LIKE "__.png" "é.png" = false.
Proof. split; reflexivity. Qed.

(** [LOWER] and LIKE fold the ASCII letters only. *)
Example like_folds_ascii_only :
  Sql.LIKE "%été%" (Sql.LOWER "Été.png") = false.
Proof. reflexivity. Qed.

Example upload_mixed_batch :
  fst (Main.upload Sample.cfg Sample.env Sample.io
         [Sample.icon; Sample.notes; Sample.broken; Sample.photo]
         Sample.empty_world) =
  Return [mkItem "a0f3c" "Icon.PNG" 3 2 "/static/images/a0f3c.png"
                 "2024-05-02T10:00:00";
          mkItem "b0f3c" "photo.jpeg" 3 2 "/static/images/b0f3c.png"
                 "2024-05-03T10:00:00"].
Proof. reflexivity. Qed.

Example upload_to_disk_volume :
  fst (Main.upload Sample.cfg_disk Sample.env Sample.io [Sample.icon]
         Sample.empty_world) =
  Return [mkItem "a0f3c" "Icon.PNG" 3 2 "/api/file/a0f3c.png"
                 "2024-05-02T10:00:00"].
Proof. reflexivity. Qed.

(** A disk that is full once the file is opened: no record, an empty file. *)
Example upload_on_full_disk :
  let r := Main.upload Sample.cfg Sample.env_faulty Sample.io [Sample.icon]
             Sample.empty_world in
  fst r = Return [] /\ table (snd r) = [] /\
  files (snd r) = {[ ["/"; "srv"; "app"; "static"; "images"; "a0f3c.png"] := [] ]}.
Proof. repeat split; vm_compute; reflexivity. Qed.

Example delete_on_faulty_disk_keeps_file :
  let r := Main.delete_image Sample.cfg Sample.env_faulty "a0f3c" Sample.stocked in
  fst r = Return true /\ table (snd r) = [Sample.row_b] /\
  files (snd r) = files Sample.stocked.
Proof. repeat split; reflexivity. Qed.

Example delete_removes_file :
  let r := Main.delete_image Sample.cfg Sample.env "a0f3c" Sample.stocked in
  fst r = Return true /\ files (snd r) = ∅.
Proof. split; [reflexivity|]. vm_compute. reflexivity. Qed.

(** ** Strings *)
Section PyFacts.

Lemma append_cons (c : ascii) (s t : string) :
  String c s +:+ t = String c (s +:+ t).
Proof. reflexivity. Qed.

Lemma append_empty_r (s : string) : s +:+ "" = s.
Proof. induction s as [|c s IH]; [done|]. by rewrite append_cons, IH. Qed.

Lemma append_assoc (s t u : string) : (s +:+ t) +:+ u = s +:+ (t +:+ u).
Proof. induction s as [|c s IH]; [done|]. by rewrite !append_cons, IH. Qed.

Lemma lower_app (s t : string) :
  Py.lower (s +:+ t) = Py.lower s +:+ Py.lower t.
Proof.
  induction s as [|c s IH]; [done|].
  rewrite append_cons. simpl. by rewrite IH.
Qed.

Lemma eqb_true_iff (s t : string) : String.eqb s t = true <-> s = t.
Proof. apply String.eqb_eq. Qed.

Lemma endswith_nil (e : string) : Py.endswith "" e = String.eqb "" e.
Proof. unfold Py.endswith. apply orb_false_r. Qed.

Lemma endswith_cons (c : ascii) (s e : string) :
  Py.endswith (String c s) e = String.eqb (String c s) e || Py.endswith s e.
Proof. reflexivity. Qed.

Lemma endswith_iff (s e : string) :
  Py.endswith s e = true <-> exists pre, s = pre +:+ e.
Proof.
  induction s as [|c s IH].
  - rewrite endswith_nil, eqb_true_iff. split.
    + intros <-. by exists "".
    + intros [[|a pre] H]; [done|]. by rewrite append_cons in H.
  - rewrite endswith_cons, orb_true_iff, eqb_true_iff, IH. split.
    + intros [<- | [pre ->]]; [by exists ""|].
      exists (String c pre). by rewrite append_cons.
    + intros [[|a pre] H]; [by left|].
      rewrite append_cons in H. injection H as -> ->. right. by exists pre.
Qed.

Lemma endswith_refl (s : string) : Py.endswith s s = true.
Proof. apply endswith_iff. by exists "". Qed.

Lemma endswith_app (pre s e : string) :
  Py.endswith s e = true -> Py.endswith (pre +:+ s) e = true.
Proof.
  rewrite !endswith_iff. intros [p ->]. exists (pre +:+ p).
  by rewrite append_assoc.
Qed.

Lemma split_not_nil (sep : ascii) (s : string) : Py.split sep s <> [].
Proof.
  destruct s as [|c s]; simpl; [done|].
  destruct (Ascii.eqb c sep); [done|]. by destruct (Py.split sep s).
Qed.

Lemma last_item_cons (x : string) (l : list string) :
  l <> [] -> Py.last_item (x :: l) = Py.last_item l.
Proof. unfold Py.last_item. by destruct l. Qed.

Lemma join_cons (sep x y : string) (l : list string) :
  Py.join sep (x :: y :: l) = x +:+ sep +:+ Py.join sep (y :: l).
Proof. reflexivity. Qed.

(** [sep.join(s.split(sep)) == s] *)
Lemma join_split (sep : ascii) (s : string) :
  Py.join (String sep "") (Py.split sep s) = s.
Proof.
  induction s as [|c s IH]; [done|]. simpl Py.split.
  destruct (Ascii.eqb_spec c sep) as [->|Hc].
  - pose proof (split_not_nil sep s) as Hne.
    destruct (Py.split sep s) as [|p ps]; [done|].
    rewrite join_cons, IH. reflexivity.
  - pose proof (split_not_nil sep s) as Hne.
    destruct (Py.split sep s) as [|p [|q ps]]; [done| |].
    + simpl in *. by rewrite IH.
    + rewrite join_cons in *. by rewrite append_cons, IH.
Qed.

Lemma join_last (sep : string) (l : list string) :
  exists pre, Py.join sep l = pre +:+ Py.last_item l.
Proof.
  induction l as [|x [|y l] [pre IH]]; [exists ""; reflexivity ..|].
  exists (x +:+ sep +:+ pre).
  rewrite join_cons, IH, (last_item_cons x (y :: l)) by done.
  by rewrite !append_assoc.
Qed.

(** The last piece of a split is a tail of the string. *)
Lemma last_split_suffix (sep : ascii) (s : string) :
  exists pre, s = pre +:+ Py.last_item (Py.split sep s).
Proof.
  destruct (join_last (String sep "") (Py.split sep s)) as [pre H].
  exists pre. by rewrite <- H, join_split.
Qed.

Lemma base_name_suffix (fname : string) :
  exists pre, fname = pre +:+ base_name fname.
Proof.
  unfold base_name.
  destruct (last_split_suffix "/" fname) as [p1 H1].
  destruct (last_split_suffix "\" (Py.last_item (Py.split "/" fname))) as [p2 H2].
  exists (p1 +:+ p2). by rewrite append_assoc, <- H2.
Qed.

End PyFacts.

(** ** Classification looks at the base name; the extension is the same *)
Section Classifier.

Lemma contains_char_cons (sep c : ascii) (s : string) :
  Py.contains (String c s) (String sep "") =
  Ascii.eqb c sep || Py.contains s (String sep "").
Proof.
  simpl. f_equal. destruct s; apply andb_true_r.
Qed.

Lemma split_no_sep (sep : ascii) (s : string) :
  Py.contains s (String sep "") = false -> Py.split sep s = [s].
Proof.
  induction s as [|c s IH]; [done|].
  rewrite contains_char_cons. intros [Hc Hs]%orb_false_iff.
  simpl. by rewrite Hc, IH.
Qed.

Lemma split_single (sep : ascii) (s p : string) :
  Py.split sep s = [p] -> Py.contains s (String sep "") = false.
Proof.
  revert p. induction s as [|c s IH]; intros p; [done|].
  rewrite contains_char_cons. simpl.
  pose proof (split_not_nil sep s) as Hne.
  destruct (Ascii.eqb c sep).
  - intros [= _ E]. by rewrite E in Hne.
  - destruct (Py.split sep s) as [|p' ps']; [done|].
    intros [= _ ->]. simpl. by apply (IH p').
Qed.

Lemma endswith_last_split (sep : ascii) (s e : string) :
  Py.contains e (String sep "") = false ->
  Py.endswith (Py.last_item (Py.split sep s)) e = Py.endswith s e.
Proof.
  intros He. induction s as [|c s IH]; [done|].
  destruct (Py.contains (String c s) (String sep "")) eqn:Hs;
    [|by rewrite split_no_sep].
  rewrite endswith_cons.
  assert (String.eqb (String c s) e = false) as ->.
  { apply String.eqb_neq. intros <-. congruence. }
  rewrite orb_false_l, <- IH. simpl Py.split.
  rewrite contains_char_cons in Hs.
  pose proof (split_not_nil sep s) as Hne.
  destruct (Ascii.eqb c sep); [by rewrite last_item_cons|].
  destruct (Py.split sep s) as [|p [|q ps]] eqn:E; [done| |done].
  apply split_single in E. simpl in Hs. congruence.
Qed.

Lemma lower_char_slash (c : ascii) :
  Ascii.eqb (Py.lower_char c) "/" = Ascii.eqb c "/".
Proof. by destruct c as [[] [] [] [] [] [] [] []]. Qed.

Lemma lower_char_backslash (c : ascii) :
  Ascii.eqb (Py.lower_char c) "\" = Ascii.eqb c "\".
Proof. by destruct c as [[] [] [] [] [] [] [] []]. Qed.

Lemma split_lower (sep : ascii) (s : string) :
  (forall c, Ascii.eqb (Py.lower_char c) sep = Ascii.eqb c sep) ->
  Py.split sep (Py.lower s) = List.map Py.lower (Py.split sep s).
Proof.
  intros Hsep. induction s as [|c s IH]; [done|]. simpl.
  rewrite Hsep, IH. destruct (Ascii.eqb c sep); [done|].
  by destruct (Py.split sep s).
Qed.

Lemma last_item_lower (l : list string) :
  Py.last_item (List.map Py.lower l) = Py.lower (Py.last_item l).
Proof.
  unfold Py.last_item.
  induction l as [|x [|y l] IH]; [done..|]. exact IH.
Qed.

Lemma lower_base_name (fname : string) :
  Py.lower (base_name fname) = base_name (Py.lower fname).
Proof.
  unfold base_name.
  rewrite (split_lower "/") by apply lower_char_slash.
  rewrite last_item_lower.
  rewrite (split_lower "\") by apply lower_char_backslash.
  by rewrite last_item_lower.
Qed.

(** An extension that holds no separator ends the file name exactly when
    it ends the base name. *)
Lemma endswith_base_name (fname e : string) :
  Py.contains e "/" = false -> Py.contains e "\" = false ->
  Py.endswith (Py.lower (base_name fname)) e = Py.endswith (Py.lower fname) e.
Proof.
  intros H1 H2. rewrite lower_base_name. unfold base_name.
  by rewrite !endswith_last_split.
Qed.

Lemma ext_of_in_ext (supported : list string) (a b : string) :
  Forall (fun e => Py.endswith a e = Py.endswith b e) supported ->
  ext_of_in supported a = ext_of_in supported b.
Proof.
  induction 1 as [|e rest He _ IH]; [done|].
  simpl. by rewrite He, IH.
Qed.

Lemma ext_of_in_empty (supported : list string) (low : string) :
  Forall (fun e => Py.truthy e = true) supported ->
  Py.truthy (ext_of_in supported low) = false <->
  Forall (fun e => Py.endswith low e = false) supported.
Proof.
  induction 1 as [|e rest He _ IH]; simpl; [by split|].
  destruct (Py.endswith low e) eqn:E.
  - rewrite He. split; [done|]. intros H. inversion H; congruence.
  - rewrite IH. split; [by constructor|]. intros H. by inversion H.
Qed.

(** [SUPPORTED] is a set, visited in an order Python does not fix: whether
    a name is classified does not depend on that order. *)
Lemma ext_of_in_order (l l' : list string) (low : string) :
  l ≡ₚ l' -> Forall (fun e => Py.truthy e = true) l ->
  Py.truthy (ext_of_in l low) = Py.truthy (ext_of_in l' low).
Proof.
  intros Hperm Hl.
  assert (Forall (fun e => Py.truthy e = true) l') as Hl' by by rewrite <- Hperm.
  destruct (Py.truthy (ext_of_in l' low)) eqn:E'.
  - destruct (Py.truthy (ext_of_in l low)) eqn:E; [done|].
    apply ext_of_in_empty in E; [|done]. rewrite Hperm in E.
    apply ext_of_in_empty in E; [|done]. congruence.
  - apply ext_of_in_empty in E'; [|done]. rewrite <- Hperm in E'.
    by apply ext_of_in_empty.
Qed.

Lemma main_supported_plain :
  Forall (fun e => Py.truthy e = true /\ Py.contains e "/" = false /\
                   Py.contains e "\" = false) Main.SUPPORTED.
Proof. repeat constructor. Qed.

Lemma backend_supported_plain :
  Forall (fun e => Py.truthy e = true /\ Py.contains e "/" = false /\
                   Py.contains e "\" = false) Backend.SUPPORTED.
Proof. repeat constructor. Qed.

Lemma main_ext_of_base_name (fname : string) :
  Main.ext_of (base_name fname) = Main.ext_of fname.
Proof.
  apply ext_of_in_ext. eapply Forall_impl; [apply main_supported_plain|].
  intros e (_ & H1 & H2). by apply endswith_base_name.
Qed.

Lemma backend_ext_of_base_name (fname : string) :
  Backend.ext_of (base_name fname) = Backend.ext_of fname.
Proof.
  apply ext_of_in_ext. eapply Forall_impl; [apply backend_supported_plain|].
  intros e (_ & H1 & H2). by apply endswith_base_name.
Qed.

(** No name is classified unless it ends, lowercased, in a listed extension. *)
Lemma main_ext_of_falsy (fname : string) :
  Py.truthy (Main.ext_of fname) = false <->
  Forall (fun e => Py.endswith (Py.lower fname) e = false) Main.SUPPORTED.
Proof.
  apply ext_of_in_empty. eapply Forall_impl; [apply main_supported_plain|].
  by intros e (H & _).
Qed.

Lemma backend_ext_of_falsy (fname : string) :
  Py.truthy (Backend.ext_of fname) = false <->
  Forall (fun e => Py.endswith (Py.lower fname) e = false) Backend.SUPPORTED.
Proof.
  apply ext_of_in_empty. eapply Forall_impl; [apply backend_supported_plain|].
  by intros e (H & _).
Qed.

End Classifier.

(** ** The upload loop *)
Section UploadLoop.
Context (cfg : Config) (env : Env) (io : ImageIO) (pil : Pillow).

Lemma main_loop_step (f : UploadFile) (rest : list UploadFile)
    (out : list ImageItem) (r : option ImageItem) (w w' : World) :
  Main.upload_one cfg env io f w = (Return r, w') ->
  Main.upload_loop cfg env io (f :: rest) out w =
  Main.upload_loop cfg env io rest
    (match r with Some item => out ++ [item] | None => out end) w'.
Proof. intros H. simpl. unfold bind. by rewrite H. Qed.

Lemma backend_loop_step (f : UploadFile) (rest : list UploadFile)
    (out : list ImageItem) (r : option ImageItem) (w w' : World) :
  Backend.upload_one cfg env pil f w = (Return r, w') ->
  Backend.upload_loop cfg env pil (f :: rest) out w =
  Backend.upload_loop cfg env pil rest
    (match r with Some item => out ++ [item] | None => out end) w'.
Proof. intros H. simpl. unfold bind. by rewrite H. Qed.

(** Whatever happens inside the [try], one turn of the loop ends normally. *)
Lemma main_upload_one_returns (f : UploadFile) (w : World) :
  exists r w', Main.upload_one cfg env io f w = (Return r, w').
Proof.
  unfold Main.upload_one.
  destruct (negb _); [by eexists _, _|].
  unfold try_except, bind.
  destruct (Main.store_image cfg env io _ f w) as [[item|e] w1];
    [by eexists _, _|].
  destruct e; by eexists _, _.
Qed.

Lemma backend_upload_one_returns (f : UploadFile) (w : World) :
  exists r w', Backend.upload_one cfg env pil f w = (Return r, w').
Proof.
  unfold Backend.upload_one.
  destruct (negb _); [by eexists _, _|].
  unfold try_except, bind.
  destruct (Backend.store_image cfg env pil _ f w) as [[item|e] w1];
    [by eexists _, _|].
  destruct e; by eexists _, _.
Qed.

Lemma main_loop_returns (fs : list UploadFile) (out : list ImageItem) (w : World) :
  exists out' w', Main.upload_loop cfg env io fs out w = (Return out', w').
Proof.
  revert out w. induction fs as [|f fs IH]; intros out w; [by eexists _, _|].
  destruct (main_upload_one_returns f w) as (r & w1 & H1).
  rewrite (main_loop_step _ _ _ _ _ _ H1). apply IH.
Qed.


Lemma main_answers_every_batch : answers_every_batch (Main.upload cfg env io).
Proof. intros [|f fs] w Hne; [done|]. apply main_loop_returns. Qed.


Lemma main_upload_one_unsupported (f : UploadFile) (w : World) :
  Py.truthy (Main.ext_of (filename f)) = false ->
  Main.upload_one cfg env io f w = (Return None, w).
Proof.
  intros H. unfold Main.upload_one.
  by rewrite main_ext_of_base_name, H.
Qed.

(** A turn that changes nothing can be dropped from the batch. *)
Lemma main_loop_drop (f : UploadFile) (before after : list UploadFile)
    (out : list ImageItem) (w : World) :
  (forall w0, Main.upload_one cfg env io f w0 = (Return None, w0)) ->
  Main.upload_loop cfg env io (before ++ f :: after) out w =
  Main.upload_loop cfg env io (before ++ after) out w.
Proof.
  intros Hf. revert out w.
  induction before as [|b before IH]; intros out w.
  - simpl app. by rewrite (main_loop_step _ _ _ _ _ _ (Hf w)).
  - destruct (main_upload_one_returns b w) as (r & w1 & H1).
    rewrite <- !app_comm_cons, !(main_loop_step _ _ _ _ _ _ H1). apply IH.
Qed.





End UploadLoop.

(** ** Claims about the upload operation *)

(** C2.  A file whose name, lowercased, ends in none of the extensions of
    [SUPPORTED] yields no record and changes neither the table nor the
    files, whatever its bytes are: the turn of the loop leaves the world as
    it was, and the batch is answered as if the file had not been sent. *)
Theorem upload_ignores_unsupported (cfg : Config) (env : Env) (io : ImageIO)
    (fname : string) :
  Forall (fun e => Py.endswith (Py.lower fname) e = false) Main.SUPPORTED ->
  forall raw : bytes,
    (forall w, Main.upload_one cfg env io (mkUpload fname raw) w = (Return None, w)) /\
    (forall before after w,
        Main.upload cfg env io (before ++ mkUpload fname raw :: after) w =
        Main.upload_loop cfg env io (before ++ after) [] w).
Proof.
  intros Hext raw.
  assert (forall w, Main.upload_one cfg env io (mkUpload fname raw) w = (Return None, w))
    as Hskip.
  { intros w. apply main_upload_one_unsupported. by apply main_ext_of_falsy. }
  split; [exact Hskip|].
  intros before after w.
  rewrite <- (main_loop_drop cfg env io _ before after [] w Hskip).
  by destruct before.
Qed.

Lemma upload_ignores_unsupported_witness :
  Forall (fun e => Py.endswith (Py.lower "notes.txt") e = false) Main.SUPPORTED /\
  Main.upload Sample.cfg Sample.env Sample.io
    [Sample.icon; mkUpload "notes.txt" Sample.rgb_2x3; Sample.photo] Sample.empty_world =
  Main.upload_loop Sample.cfg Sample.env Sample.io
    [Sample.icon; Sample.photo] [] Sample.empty_world.
Proof.
  assert (Forall (fun e => Py.endswith (Py.lower "notes.txt") e = false)
            Main.SUPPORTED) as H by (repeat constructor).
  split; [exact H|].
  exact (proj2 (upload_ignores_unsupported Sample.cfg Sample.env Sample.io
                  "notes.txt" H Sample.rgb_2x3)
           [Sample.icon] [Sample.photo] Sample.empty_world).
Defined.



(** C8.  An upload request without files is rejected as a whole with the
    client error 400 and changes nothing; it is the only request answered
    that way, a request with files gets a list. *)
Theorem upload_rejects_empty_batch (cfg : Config) (env : Env) (io : ImageIO)
    (fs : list UploadFile) (w : World) :
  Main.upload cfg env io [] w =
    (Raise (HTTPException 400 "No files provided."), w) /\
  (fst (Main.upload cfg env io fs w) =
     Raise (HTTPException 400 "No files provided.") <-> fs = []).
Proof.
  split; [done|]. split.
  - destruct fs as [|f fs]; [done|]. intros H.
    destruct (main_answers_every_batch cfg env io (f :: fs) w) as (out & w' & E);
      [done|].
    by rewrite E in H.
  - by intros ->.
Qed.

(** ** A batch of valid images *)
Section ValidBatch.
Context (cfg : Config) (env : Env) (io : ImageIO).

Lemma existsb_id_fresh (tbl : list ImageItem) (i : string) :
  i ∉ List.map id tbl ->
  List.existsb (fun x => String.eqb (id x) i) tbl = false.
Proof.
  induction tbl as [|r tbl IH]; [done|]. simpl.
  rewrite not_elem_of_cons. intros [Hne Hnot].
  rewrite IH by done. rewrite orb_false_r.
  apply String.eqb_neq. congruence.
Qed.

Lemma main_to_png_bytes_valid (f : UploadFile) (arr : ndarray) (h w : nat)
    (png : bytes) :
  imread io (content f) = Return arr ->
  shape arr !! 0 = Some h -> shape arr !! 1 = Some w ->
  imwrite io "PNG" arr = Return png ->
  Main.to_png_bytes io (content f) = Return (png, w, h, "unknown").
Proof.
  intros Hr Hh Hw Hp. unfold Main.to_png_bytes, Main.to_png_bytes_try.
  by rewrite Hr, Hh, Hw, Hp.
Qed.

Lemma main_upload_one_valid (f : UploadFile) (w : World) :
  Py.truthy (Main.ext_of (filename f)) = true ->
  valid_image io f ->
  write_faults env (Main.IMAGE_DIR cfg ++ [uuid4_hex env (tick w) +:+ ".png"]) = false ->
  uuid4_hex env (tick w) ∉ List.map id (table w) ->
  exists item w',
    Main.upload_one cfg env io f w = (Return (Some item), w') /\
    describes io f item /\ id item = uuid4_hex env (tick w) /\
    table w' = table w ++ [item] /\ tick w' = S (tick w).
Proof.
  intros Hext (arr & h & wd & png & Hr & Hh & Hw & Hp) Hdisk Hfresh.
  unfold Main.upload_one. rewrite main_ext_of_base_name, Hext. simpl negb.
  unfold try_except, bind, Main.store_image, bind, lift.
  rewrite (main_to_png_bytes_valid f arr h wd png) by done.
  unfold uuid4, write_file, utcnow, db_insert, Sql.insert. simpl.
  rewrite Hdisk. simpl. rewrite existsb_id_fresh by done.
  eexists _, _. split; [reflexivity|]. simpl.
  repeat split. by exists arr.
Qed.

Lemma main_loop_valid (fs : list UploadFile) :
  forall (acc : list ImageItem) (w : World),
  Forall (fun f => Py.truthy (Main.ext_of (filename f)) = true) fs ->
  Forall (valid_image io) fs ->
  Forall (fun i => write_faults env (Main.IMAGE_DIR cfg ++ [i +:+ ".png"]) = false)
         (next_ids env (tick w) (length fs)) ->
  fresh_ids env w (length fs) ->
  exists out w',
    Main.upload_loop cfg env io fs acc w = (Return (acc ++ out), w') /\
    Forall2 (describes io) fs out /\
    table w' = table w ++ out.
Proof.
  induction fs as [|f fs IH]; intros acc w Hext Hval Hdisk [Hnd Hnew].
  - exists [], w. by rewrite !app_nil_r.
  - simpl in Hdisk, Hnd, Hnew.
    apply Forall_cons in Hext as [Hext1 Hext], Hval as [Hval1 Hval],
      Hdisk as [Hdisk1 Hdisk], Hnew as [Hnew1 Hnew].
    apply NoDup_cons in Hnd as [Hnd1 Hnd].
    destruct (main_upload_one_valid f w Hext1 Hval1 Hdisk1 Hnew1)
      as (item & w1 & H1 & Hdesc & Hid & Htab & Htick).
    rewrite (main_loop_step _ _ _ _ _ _ _ _ _ H1).
    destruct (IH (acc ++ [item]) w1) as (out & w' & Hloop & Hall & Htab');
      [done|done|by rewrite Htick| |].
    { split; rewrite Htick; [done|]. rewrite Htab, map_app.
      apply Forall_forall. intros i Hi. rewrite elem_of_app.
      intros [Hin|Hin%list_elem_of_singleton].
      - by apply (proj1 (Forall_forall _ _) Hnew i Hi).
      - simpl in Hin. congruence. }
    exists (item :: out), w'. repeat split.
    + by rewrite Hloop, <- app_assoc.
    + by constructor.
    + by rewrite Htab', Htab, <- app_assoc.
Qed.

End ValidBatch.

(** C1, as the service has it.  For a non-empty batch of files whose names
    carry a supported extension and whose bytes the codec converts, on a
    disk that accepts the writes and with fresh identifiers, the upload
    returns one record per file, in the order of submission; each record
    has the height and width of the array decoded from its file, and the
    records are the rows the table gains. *)
Theorem upload_valid_batch (cfg : Config) (env : Env) (io : ImageIO)
    (fs : list UploadFile) (w : World) :
  fs <> [] ->
  Forall (fun f => Py.truthy (Main.ext_of (filename f)) = true) fs ->
  Forall (valid_image io) fs ->
  Forall (fun i => write_faults env (Main.IMAGE_DIR cfg ++ [i +:+ ".png"]) = false)
         (next_ids env (tick w) (length fs)) ->
  fresh_ids env w (length fs) ->
  exists out w',
    Main.upload cfg env io fs w = (Return out, w') /\
    Forall2 (describes io) fs out /\
    table w' = table w ++ out.
Proof.
  intros Hne Hext Hval Hdisk Hfresh.
  destruct (main_loop_valid cfg env io fs [] w Hext Hval Hdisk Hfresh)
    as (out & w' & Hloop & Hall & Htab).
  exists out, w'. repeat split; [|done..].
  by destruct fs.
Qed.

Lemma upload_valid_batch_witness :
  exists out w',
    Main.upload Sample.cfg Sample.env Sample.io [Sample.icon; Sample.photo]
      Sample.empty_world = (Return out, w') /\
    Forall2 (describes Sample.io) [Sample.icon; Sample.photo] out /\
    table w' = table Sample.empty_world ++ out.
Proof.
  apply (upload_valid_batch Sample.cfg Sample.env Sample.io
           [Sample.icon; Sample.photo] Sample.empty_world).
  - discriminate.
  - repeat constructor.
  - repeat constructor;
      exists (mkArray [2; 3; 3] [Byte.xff]), 2, 3;
      eexists; repeat split; reflexivity.
  - repeat constructor.
  - split.
    + apply (bool_decide_unpack _). vm_compute. exact I.
    + repeat constructor; apply not_elem_of_nil.
Defined.

(** C1 as stated fails: a valid image with a supported name yields no
    record when the disk refuses the write. *)
Lemma upload_valid_batch_needs_disk :
  ~ (forall (cfg : Config) (env : Env) (io : ImageIO) (fs : list UploadFile)
            (w : World),
        fs <> [] ->
        Forall (fun f => Py.truthy (Main.ext_of (filename f)) = true) fs ->
        Forall (valid_image io) fs ->
        exists out w',
          Main.upload cfg env io fs w = (Return out, w') /\
          Forall2 (describes io) fs out).
Proof.
  intros H.
  destruct (H Sample.cfg Sample.env_faulty Sample.io [Sample.icon]
              Sample.empty_world) as (out & w' & E & Hall).
  - discriminate.
  - repeat constructor.
  - repeat constructor.
    exists (mkArray [2; 3; 3] [Byte.xff]), 2, 3.
    eexists; repeat split; reflexivity.
  - assert (fst (Main.upload Sample.cfg Sample.env_faulty Sample.io [Sample.icon]
                   Sample.empty_world) = Return []) as E0 by reflexivity.
    rewrite E in E0. simpl in E0. injection E0 as ->. inversion Hall.
Qed.

(** ** The codec adapters *)

(** C6 as stated fails for the imageio service: the array is written as it
    was read, and a three-channel image stays without alpha. *)
Lemma to_png_bytes_keeps_channels :
  ~ (forall (io : ImageIO) (raw png : bytes) (w h : nat) (fmt : string),
        Main.to_png_bytes io raw = Return (png, w, h, fmt) ->
        exists arr, has_alpha_channel arr = true /\
                    imwrite io "PNG" arr = Return png).
Proof.
  intros H.
  destruct (H Sample.io Sample.rgb_2x3 _ _ _ _ eq_refl) as ([sh px] & Ha & Hw).
  unfold has_alpha_channel in Ha. simpl in Ha.
  destruct sh as [|a [|b [|c [|d sh]]]]; try discriminate.
  vm_compute in Hw. injection Hw as _ _ Hc _.
  apply orb_true_iff in Ha as [->%Nat.eqb_eq| ->%Nat.eqb_eq]; discriminate.
Qed.

(** C6, as the services have it.  What the adapter returns is what the
    library's encoder gives for the format PNG.  The Pillow service encodes
    the image converted to the mode RGBA, of the size of the opened image;
    the imageio service encodes the array as it was read and reports its
    first two axes as height and width.  In the imageio service every
    failure, an unreadable input among them, comes out as
    [UnidentifiedImageError]; in the Pillow service an input the library
    cannot identify does. *)
Theorem to_png_bytes_contract (io : ImageIO) (pil : Pillow) (raw : bytes) :
  (forall png w h fmt,
      Main.to_png_bytes io raw = Return (png, w, h, fmt) ->
      exists arr, imread io raw = Return arr /\
        imwrite io "PNG" arr = Return png /\
        shape arr !! 0 = Some h /\ shape arr !! 1 = Some w) /\
  (forall e, imread io raw = Raise e ->
      Main.to_png_bytes io raw = Raise UnidentifiedImageError) /\
  (forall e, Main.to_png_bytes io raw = Raise e -> e = UnidentifiedImageError) /\
  (forall png w h fmt,
      Backend.to_png_bytes pil raw = Return (png, w, h, fmt) ->
      exists im0 im, Image_open pil raw = Return im0 /\
        Image_convert pil "RGBA" im0 = Return im /\
        im_mode im = "RGBA" /\
        Image_save pil "PNG" im = Return png /\
        w = im_width im0 /\ h = im_height im0) /\
  (Image_open pil raw = Raise UnidentifiedImageError ->
      Backend.to_png_bytes pil raw = Raise UnidentifiedImageError).
Proof.
  repeat split.
  - intros png w h fmt. unfold Main.to_png_bytes, Main.to_png_bytes_try.
    destruct (imread io raw) as [arr|e] eqn:Hr; [|done].
    destruct (shape arr !! 0) as [h'|] eqn:Hh; [|done].
    destruct (shape arr !! 1) as [w'|] eqn:Hw; [|done].
    destruct (imwrite io "PNG" arr) as [png'|e] eqn:Hp; [|done].
    intros [= <- <- <- _]. by exists arr.
  - intros e He. unfold Main.to_png_bytes, Main.to_png_bytes_try. by rewrite He.
  - intros e. unfold Main.to_png_bytes.
    destruct (Main.to_png_bytes_try io raw); [done|]. by intros [= <-].
  - intros png w h fmt. unfold Backend.to_png_bytes.
    destruct (Image_open pil raw) as [im0|e] eqn:Ho; [|done].
    destruct (Image_convert pil "RGBA" im0) as [im|e] eqn:Hc; [|done].
    destruct (Image_save pil "PNG" im) as [png'|e] eqn:Hs; [|done].
    intros [= <- <- <- _]. exists im0, im.
    assert (im_mode im = "RGBA" /\ im_width im = im_width im0 /\
            im_height im = im_height im0) as (Hm & Hwd & Hht).
    { unfold Image_convert in Hc.
      destruct (convert_pixels pil "RGBA" im0) as [px|e]; [|done].
      by injection Hc as <-. }
    by rewrite Hwd, Hht.
  - intros He. unfold Backend.to_png_bytes. by rewrite He.
Qed.

Lemma to_png_bytes_contract_witness :
  Backend.to_png_bytes Sample.pil Sample.junk = Raise UnidentifiedImageError /\
  Main.to_png_bytes Sample.io Sample.junk = Raise UnidentifiedImageError.
Proof.
  pose proof (to_png_bytes_contract Sample.io Sample.pil Sample.junk)
    as (_ & Hmain & _ & _ & Hback).
  split.
  - apply Hback. reflexivity.
  - apply (Hmain CodecFault). reflexivity.
Defined.

(** ** Public urls *)
Section Urls.

Lemma strip_parts_iff (p base rel : list string) :
  Pathlib.strip_parts p base = Some rel <-> p = base ++ rel.
Proof.
  revert p. induction base as [|b base IH]; intros p; simpl.
  - destruct p; simpl; split; congruence.
  - destruct p as [|a p]; simpl; [split; congruence|].
    destruct (String.eqb_spec a b) as [->|Hab]; [rewrite IH|];
      split; congruence.
Qed.

Lemma relative_to_iff (p base rel : Path) :
  base <> [] ->
  Pathlib.relative_to p base = Some rel <-> p = base ++ rel.
Proof.
  intros Hne. unfold Pathlib.relative_to.
  destruct (String.eqb_spec (Pathlib.anchor p) (Pathlib.anchor base)) as [_|Ha].
  - apply strip_parts_iff.
  - split; [done|]. intros ->. destruct Ha. by destruct base.
Qed.

Lemma static_dir_not_nil (cfg : Config) : Main.STATIC_DIR cfg <> [].
Proof. unfold Main.STATIC_DIR. by destruct (BASE_DIR cfg). Qed.

End Urls.

(** C7.  The public url is a function of the path and the static root
    alone.  It is a [/static/] url exactly when the path lies beneath the
    static root, and then names the path relative to that root; otherwise
    it is the file-serving endpoint followed by the bare file name.  For a
    file in [static/images] it is the url the Pillow service writes. *)
Theorem build_public_url_cases (cfg : Config) (p : Path) :
  (beneath (Main.STATIC_DIR cfg) p <->
   Py.startswith (Main.build_public_url cfg p) "/static/" = true) /\
  (forall rel, p = Main.STATIC_DIR cfg ++ rel ->
     Main.build_public_url cfg p = "/static/" +:+ Pathlib.as_posix rel) /\
  (~ beneath (Main.STATIC_DIR cfg) p ->
     Main.build_public_url cfg p = "/api/file/" +:+ Pathlib.name p) /\
  (forall iid,
     Main.build_public_url cfg (Backend.IMG_DIR cfg ++ [iid +:+ ".png"]) =
     "/static/images/" +:+ iid +:+ ".png").
Proof.
  pose proof (static_dir_not_nil cfg) as Hne.
  assert (forall rel, p = Main.STATIC_DIR cfg ++ rel ->
            Main.build_public_url cfg p = "/static/" +:+ Pathlib.as_posix rel) as Hin.
  { intros rel Hp. unfold Main.build_public_url.
    by rewrite (proj2 (relative_to_iff p _ rel Hne) Hp). }
  assert (~ beneath (Main.STATIC_DIR cfg) p ->
            Main.build_public_url cfg p = "/api/file/" +:+ Pathlib.name p) as Hout.
  { intros Hno. unfold Main.build_public_url.
    destruct (Pathlib.relative_to p (Main.STATIC_DIR cfg)) as [rel|] eqn:E; [|done].
    destruct Hno. exists rel. by apply relative_to_iff. }
  repeat split; [| |exact Hin|exact Hout|].
  - intros [rel Hp]. rewrite (Hin rel Hp). reflexivity.
  - intros Hs. unfold Main.build_public_url in Hs.
    destruct (Pathlib.relative_to p (Main.STATIC_DIR cfg)) as [rel|] eqn:E;
      [|by compute in Hs].
    exists rel. by apply relative_to_iff.
  - intros iid. unfold Main.build_public_url.
    assert (Backend.IMG_DIR cfg ++ [iid +:+ ".png"] =
            Main.STATIC_DIR cfg ++ ["images"; iid +:+ ".png"]) as Heq.
    { unfold Backend.IMG_DIR, Backend.STATIC_DIR, Main.STATIC_DIR.
      by rewrite <- !app_assoc. }
    rewrite (proj2 (relative_to_iff _ _ _ Hne) Heq). reflexivity.
Qed.

Lemma build_public_url_cases_witness :
  Main.build_public_url Sample.cfg ["/"; "data"; "images"; "a0f3c.png"] =
  "/api/file/a0f3c.png".
Proof.
  apply (proj1 (proj2 (proj2 (build_public_url_cases Sample.cfg
                  ["/"; "data"; "images"; "a0f3c.png"])))).
  intros [rel Hrel]. discriminate Hrel.
Defined.

(** ** The table *)
Section Table.

Lemma select_url_none (tbl : list ImageItem) (i : string) :
  Sql.select_url tbl i = None <-> i ∉ List.map id tbl.
Proof.
  induction tbl as [|r tbl IH]; simpl.
  - split; [intros _; apply not_elem_of_nil|done].
  - rewrite not_elem_of_cons.
    destruct (String.eqb_spec (id r) i) as [Heq|Hne].
    + split; [done|]. by intros [? _].
    + rewrite IH. split; [|by intros [_ ?]]. intros ?. split; congruence.
Qed.

Lemma select_url_some (tbl : list ImageItem) (i : string) :
  i ∈ List.map id tbl -> exists u, Sql.select_url tbl i = Some u.
Proof.
  intros Hin. destruct (Sql.select_url tbl i) as [u|] eqn:E; [by exists u|].
  by apply select_url_none in E.
Qed.

Lemma delete_where_id_gone (tbl : list ImageItem) (i : string) :
  i ∉ List.map id (Sql.delete_where_id tbl i).
Proof.
  induction tbl as [|r tbl IH]; simpl; [apply not_elem_of_nil|].
  destruct (String.eqb_spec (id r) i) as [Heq|Hne]; simpl; [done|].
  apply not_elem_of_cons. split; congruence.
Qed.

Lemma delete_where_id_absent (tbl : list ImageItem) (i : string) :
  i ∉ List.map id tbl -> Sql.delete_where_id tbl i = tbl.
Proof.
  induction tbl as [|r tbl IH]; simpl; [done|].
  rewrite not_elem_of_cons. intros [Hne Hnot].
  destruct (String.eqb_spec (id r) i) as [Heq|_]; [congruence|].
  simpl. by rewrite IH.
Qed.

Lemma insert_desc_perm (r : ImageItem) (l : list ImageItem) :
  Sql.insert_desc r l ≡ₚ r :: l.
Proof.
  induction l as [|y l IH]; simpl; [done|].
  destruct (String.leb _ _); [done|].
  rewrite IH. apply Permutation_swap.
Qed.

Lemma order_by_perm (l : list ImageItem) :
  Sql.order_by_created_at_desc l ≡ₚ l.
Proof.
  induction l as [|r l IH]; simpl; [done|].
  by rewrite insert_desc_perm, IH.
Qed.

Lemma leb_trans (a b c : string) :
  String.leb a b = true -> String.leb b c = true -> String.leb a c = true.
Proof.
  intros H1%Is_true_true H2%Is_true_true. apply Is_true_true.
  exact (transitivity (R := String.le) H1 H2).
Qed.

Lemma leb_flip (a b : string) :
  String.leb a b = false -> String.leb b a = true.
Proof.
  intros H. destruct (String.leb_total a b) as [H'|H']; congruence.
Qed.

Lemma insert_desc_sorted (r : ImageItem) (l : list ImageItem) :
  newest_first l -> newest_first (Sql.insert_desc r l).
Proof.
  unfold newest_first. induction 1 as [|y l Hl IH Hy]; simpl.
  - repeat constructor.
  - destruct (String.leb (created_at y) (created_at r)) eqn:E.
    + constructor; [by constructor|]. constructor; [done|].
      eapply Forall_impl; [exact Hy|]. simpl. intros z Hz.
      by apply (leb_trans _ (created_at y)).
    + constructor; [done|]. rewrite insert_desc_perm.
      constructor; [by apply leb_flip|done].
Qed.

Lemma order_by_sorted (l : list ImageItem) :
  newest_first (Sql.order_by_created_at_desc l).
Proof.
  induction l as [|r l IH]; simpl; [constructor|].
  by apply insert_desc_sorted.
Qed.

Lemma order_by_ids (l : list ImageItem) (i : string) :
  i ∈ List.map id (Sql.order_by_created_at_desc l) -> i ∈ List.map id l.
Proof.
  rewrite !list_elem_of_In, !in_map_iff.
  intros (r & Hr & Hin). exists r. split; [done|].
  apply list_elem_of_In. rewrite <- (order_by_perm l). by apply list_elem_of_In.
Qed.

Lemma filter_ids (P : ImageItem -> bool) (l : list ImageItem) (i : string) :
  i ∈ List.map id (List.filter P l) -> i ∈ List.map id l.
Proof.
  rewrite !list_elem_of_In, !in_map_iff.
  intros (r & Hr & Hin%filter_In). exists r. by destruct Hin.
Qed.

(** When the filtered SELECT answers, it answers with the rows the pattern
    matches, newest first. *)
Lemma select_like_rows (tbl : list ImageItem) (like : string)
    (out : list ImageItem) :
  Sql.select_like tbl like = Return out ->
  out = Sql.order_by_created_at_desc
          (List.filter (fun r => Sql.LIKE like (Sql.LOWER (name r))) tbl).
Proof.
  unfold Sql.select_like. destruct tbl as [|r tbl]; [by intros [= <-]|].
  destruct (_ <? _)%N; [done|]. by intros [= <-].
Qed.

(** Whatever the search, a listing shows only ids of rows in the table. *)
Lemma list_images_ids (search : option string) (w w' : World)
    (out : list ImageItem) (i : string) :
  list_images search w = (Return out, w') ->
  i ∈ List.map id out -> i ∈ List.map id (table w).
Proof.
  unfold list_images, bind, db_table, ret, lift.
  destruct search as [s|]; [destruct (Py.truthy s)|].
  - destruct (Sql.select_like _ _) as [rows|e] eqn:E; [|done].
    intros [= <- _] Hin. apply select_like_rows in E as ->.
    by eapply filter_ids, order_by_ids.
  - intros [= <- _] Hin. by apply order_by_ids.
  - intros [= <- _] Hin. by apply order_by_ids.
Qed.

End Table.

(** ** Deletion *)
Section Deletion.
Context (cfg : Config) (env : Env).

Lemma unlink_guarded (dbp p : Path) (w : World) :
  exists w',
    try_except (there <- path_exists env dbp p ;;
                if there then unlink env p else ret tt)
               (fun _ => ret tt) w = (Return tt, w') /\
    file_maybe_removed w w'.
Proof.
  unfold try_except, bind, path_exists, unlink, ret, file_maybe_removed.
  destruct (bool_decide _); [|exists w; auto].
  destruct (unlink_faults env p); [exists w; auto|].
  destruct (files w !! p); [|exists w; auto].
  eexists. split; [reflexivity|]. simpl. eauto.
Qed.

Lemma main_remove_file_returns (u : string) (w : World) :
  exists w', Main.remove_file cfg env u w = (Return tt, w') /\
             file_maybe_removed w w'.
Proof.
  unfold Main.remove_file.
  destruct (Main.path_of_url cfg u) as [p|]; [apply unlink_guarded|].
  exists w. unfold file_maybe_removed. auto.
Qed.

Lemma backend_remove_file_returns (u : string) (w : World) :
  exists w', Backend.remove_file cfg env u w = (Return tt, w') /\
             file_maybe_removed w w'.
Proof. unfold Backend.remove_file. apply unlink_guarded. Qed.

Lemma main_delete_known (i : string) (w : World) :
  i ∈ List.map id (table w) ->
  exists w', Main.delete_image cfg env i w = (Return true, w') /\
    table w' = Sql.delete_where_id (table w) i /\
    (files w' = files w \/ exists p, files w' = delete p (files w)).
Proof.
  intros [u Hu]%select_url_some.
  unfold Main.delete_image, bind, db_table, db_delete. rewrite Hu.
  destruct (main_remove_file_returns u
              (set_table (Sql.delete_where_id (table w) i) w))
    as (w' & -> & Ht & _ & Hf).
  by exists w'.
Qed.

Lemma backend_delete_known (i : string) (w : World) :
  i ∈ List.map id (table w) ->
  exists w', Backend.delete_image cfg env i w = (Return true, w') /\
    table w' = Sql.delete_where_id (table w) i /\
    (files w' = files w \/ exists p, files w' = delete p (files w)).
Proof.
  intros [u Hu]%select_url_some.
  unfold Backend.delete_image, bind, db_table, db_delete. rewrite Hu.
  destruct (backend_remove_file_returns u
              (set_table (Sql.delete_where_id (table w) i) w))
    as (w' & -> & Ht & _ & Hf).
  by exists w'.
Qed.

Lemma main_delete_unknown (i : string) (w : World) :
  i ∉ List.map id (table w) ->
  Main.delete_image cfg env i w = (Raise (HTTPException 404 "Not found"), w).
Proof.
  intros Hu%select_url_none.
  unfold Main.delete_image, bind, db_table. by rewrite Hu.
Qed.

Lemma backend_delete_unknown (i : string) (w : World) :
  i ∉ List.map id (table w) ->
  Backend.delete_image cfg env i w = (Raise (HTTPException 404 "Not found"), w).
Proof.
  intros Hu%select_url_none.
  unfold Backend.delete_image, bind, db_table. by rewrite Hu.
Qed.

End Deletion.

(** C5.  Deleting a known id removes its row: the lookup by id and every
    listing no longer show it, and a second delete of the id is answered
    404.  Deleting an unknown id is answered 404 and leaves table, files
    and counter as they were.  Both services. *)
Theorem delete_image_contract (cfg : Config) (env : Env) (i : string) (w : World) :
  deletes_cleanly (Main.delete_image cfg env) i w /\
  deletes_cleanly (Backend.delete_image cfg env) i w.
Proof.
  split; (split; [intros Hin|]).
  - destruct (main_delete_known cfg env i w Hin) as (w' & Hdel & Htab & _).
    pose proof (delete_where_id_gone (table w) i) as Hgone.
    rewrite <- Htab in Hgone.
    exists w'. repeat split; [done|by apply select_url_none| |].
    + intros search out w'' Hlist Hout. apply Hgone.
      by apply (list_images_ids search w' w'' out).
    + by apply main_delete_unknown.
  - apply main_delete_unknown.
  - destruct (backend_delete_known cfg env i w Hin) as (w' & Hdel & Htab & _).
    pose proof (delete_where_id_gone (table w) i) as Hgone.
    rewrite <- Htab in Hgone.
    exists w'. repeat split; [done|by apply select_url_none| |].
    + intros search out w'' Hlist Hout. apply Hgone.
      by apply (list_images_ids search w' w'' out).
    + by apply backend_delete_unknown.
  - apply backend_delete_unknown.
Qed.

Lemma delete_image_contract_witness :
  exists w',
    Main.delete_image Sample.cfg Sample.env "a0f3c" Sample.stocked = (Return true, w') /\
    Sql.select_url (table w') "a0f3c" = None /\
    Main.delete_image Sample.cfg Sample.env "a0f3c" w' =
      (Raise (HTTPException 404 "Not found"), w').
Proof.
  destruct (proj1 (proj1 (delete_image_contract Sample.cfg Sample.env "a0f3c"
                            Sample.stocked)))
    as (w' & H1 & H2 & _ & H4).
  - apply list_elem_of_In. simpl. auto.
  - by exists w'.
Defined.

(** C9.  For a known id the delete answers ok and the row is gone whether
    or not the backing file could be removed: the environment is
    arbitrary, so the file may be absent and the disk may refuse the
    unlink.  Both services. *)
Theorem delete_image_survives_file_faults (cfg : Config) (env : Env)
    (i : string) (w : World) :
  i ∈ List.map id (table w) ->
  deleted_despite_file (Main.delete_image cfg env) i w /\
  deleted_despite_file (Backend.delete_image cfg env) i w.
Proof.
  intros Hin. split.
  - destruct (main_delete_known cfg env i w Hin) as (w' & Hdel & Htab & Hf).
    exists w'. repeat split; [done..| |done].
    rewrite Htab. apply delete_where_id_gone.
  - destruct (backend_delete_known cfg env i w Hin) as (w' & Hdel & Htab & Hf).
    exists w'. repeat split; [done..| |done].
    rewrite Htab. apply delete_where_id_gone.
Qed.

Lemma delete_image_survives_file_faults_witness :
  deleted_despite_file (Main.delete_image Sample.cfg Sample.env_faulty)
    "a0f3c" Sample.stocked /\
  deleted_despite_file (Backend.delete_image Sample.cfg Sample.env_faulty)
    "b0f3c" Sample.stocked.
Proof.
  split.
  - apply (delete_image_survives_file_faults Sample.cfg Sample.env_faulty
             "a0f3c" Sample.stocked).
    apply list_elem_of_In. simpl. auto.
  - apply (delete_image_survives_file_faults Sample.cfg Sample.env_faulty
             "b0f3c" Sample.stocked).
    apply list_elem_of_In. simpl. auto.
Defined.

(** C10.  The file endpoint answers with the bytes of whatever file lies at
    the storage root under the requested name, image or not, and with 404
    only when there is none; the database file [images.db] lies there, so
    its bytes are served to whoever asks for that name. *)
Theorem serve_file_serves_any_file (cfg : Config) (env : Env) (w : World)
    (name : string) :
  (forall body,
      visible env (Main.DB_PATH cfg) w
        !! Pathlib.joinpath (Main.IMAGE_DIR cfg) name = Some body ->
      Main.serve_file cfg env name w = (Return (body, "image/png"), w)) /\
  (visible env (Main.DB_PATH cfg) w
     !! Pathlib.joinpath (Main.IMAGE_DIR cfg) name = None ->
   Main.serve_file cfg env name w = (Raise (HTTPException 404 "Not found"), w)) /\
  Main.serve_file cfg env "images.db" w =
    (Return (db_file_bytes env (table w), "image/png"), w).
Proof.
  unfold Main.serve_file. repeat split.
  - by intros body ->.
  - by intros ->.
  - change (Pathlib.joinpath (Main.IMAGE_DIR cfg) "images.db")
      with (Main.DB_PATH cfg).
    unfold visible. by rewrite lookup_insert_eq.
Qed.

Lemma serve_file_serves_any_file_witness :
  Main.serve_file Sample.cfg Sample.env "a0f3c.png" Sample.stocked =
    (Return (Sample.rgb_2x3, "image/png"), Sample.stocked).
Proof.
  apply (proj1 (serve_file_serves_any_file Sample.cfg Sample.env Sample.stocked
                  "a0f3c.png")).
  vm_compute. reflexivity.
Defined.

(** ** Listing and the LIKE filter *)
Section Listing.

Lemma match_percent (q t : string) :
  Sql.match_from (String "%" q) t =
  List.existsb (Sql.match_from q) (Sql.char_starts false t).
Proof. reflexivity. Qed.

Lemma char_starts_empty (b : bool) (t : string) :
  In "" (Sql.char_starts b t).
Proof.
  revert b. induction t as [|c t IH]; intros b; simpl; [by left|].
  destruct (b && Sql.is_continuation c); [apply IH|right; apply IH].
Qed.

Lemma char_starts_head (t : string) : In t (Sql.char_starts false t).
Proof. destruct t; by left. Qed.

(** A tail that begins with a byte that continues no character is a tail at
    a character. *)
Lemma char_starts_tail (b : bool) (pre : string) (c : ascii) (u : string) :
  Sql.is_continuation c = false ->
  In (String c u) (Sql.char_starts b (pre +:+ String c u)).
Proof.
  intros Hc. revert b. induction pre as [|a pre IH]; intros b.
  - change ("" +:+ String c u) with (String c u). simpl.
    rewrite Hc, andb_false_r. by left.
  - rewrite append_cons. simpl.
    destruct (b && Sql.is_continuation a); [apply IH|right; apply IH].
Qed.

Lemma match_only_percent (t : string) : Sql.match_from "%" t = true.
Proof.
  rewrite match_percent. apply existsb_exists. exists "".
  split; [apply char_starts_empty|done].
Qed.

Lemma match_literal (x : ascii) (rest txt : string) :
  x <> "%"%char -> x <> "_"%char ->
  Sql.match_from (String x rest) txt =
  match txt with
  | EmptyString => false
  | String d t' =>
      Ascii.eqb (Py.lower_char x) (Py.lower_char d) && Sql.match_from rest t'
  end.
Proof.
  intros H1 H2.
  destruct x as [[] [] [] [] [] [] [] []];
    first [reflexivity | by destruct H1 | by destruct H2].
Qed.

Lemma lower_char_idem (c : ascii) :
  Py.lower_char (Py.lower_char c) = Py.lower_char c.
Proof. by destruct c as [[] [] [] [] [] [] [] []]. Qed.

Lemma lower_idem (t : string) : Py.lower (Py.lower t) = Py.lower t.
Proof.
  induction t as [|c t IH]; [done|]. simpl. by rewrite lower_char_idem, IH.
Qed.

Lemma lower_char_plain (c : ascii) :
  negb (Ascii.eqb c "%") && negb (Ascii.eqb c "_") = true ->
  Py.lower_char c <> "%"%char /\ Py.lower_char c <> "_"%char.
Proof. by destruct c as [[] [] [] [] [] [] [] []]. Qed.

(** A pattern of literal characters followed by [%] matches the texts
    that start with it, ASCII letter case aside. *)
Lemma match_prefix (p t : string) :
  wildcard_free p = true ->
  Sql.match_from (Py.lower p +:+ "%") t = Py.startswith (Py.lower t) (Py.lower p).
Proof.
  revert t. induction p as [|c p IH]; intros t Hp.
  - apply match_only_percent.
  - simpl in Hp. apply andb_true_iff in Hp as [Hc Hp].
    apply lower_char_plain in Hc as [Hc1 Hc2].
    simpl Py.lower. rewrite append_cons, match_literal by done.
    destruct t as [|d t]; [done|]. simpl.
    rewrite !lower_char_idem, IH by done.
    f_equal. apply Ascii.eqb_sym.
Qed.

(** ASCII text: no NUL, no byte of a longer character, and lowercasing
    keeps it so. *)
Lemma ascii_char_facts (c : ascii) :
  ((1 <=? N_of_ascii c) && (N_of_ascii c <? 128))%N = true ->
  Ascii.eqb c "000" = false /\ Sql.is_continuation c = false /\
  Sql.is_lead c = false /\
  ((1 <=? N_of_ascii (Py.lower_char c)) && (N_of_ascii (Py.lower_char c) <? 128))%N = true.
Proof. by destruct c as [[] [] [] [] [] [] [] []]. Qed.

Lemma ascii_text_lower (s : string) :
  ascii_text s = true -> ascii_text (Py.lower s) = true.
Proof.
  induction s as [|c s IH]; [done|]. simpl.
  intros [Hc Hs]%andb_true_iff. apply ascii_char_facts in Hc as (_ & _ & _ & ->).
  by apply IH.
Qed.

Lemma ascii_text_app (a b : string) :
  ascii_text a = true -> ascii_text b = true -> ascii_text (a +:+ b) = true.
Proof.
  intros Ha Hb. induction a as [|c a IH]; [done|].
  rewrite append_cons. simpl in *. apply andb_true_iff in Ha as [-> Ha].
  by apply IH.
Qed.

Lemma until_nul_ascii (s : string) :
  ascii_text s = true -> Sql.until_nul s = s.
Proof.
  induction s as [|c s IH]; [done|]. simpl.
  intros [Hc Hs]%andb_true_iff. apply ascii_char_facts in Hc as (-> & _).
  by rewrite IH.
Qed.

Lemma lower_char_nul (c : ascii) :
  Ascii.eqb (Py.lower_char c) "000" = Ascii.eqb c "000".
Proof. by destruct c as [[] [] [] [] [] [] [] []]. Qed.

Lemma until_nul_lower (s : string) :
  Sql.until_nul (Py.lower s) = Py.lower (Sql.until_nul s).
Proof.
  induction s as [|c s IH]; [done|]. simpl. rewrite lower_char_nul.
  destruct (Ascii.eqb c "000"); [done|]. simpl. by rewrite IH.
Qed.

Lemma continuation_not_ascii (c : ascii) (x s : string) :
  Sql.is_continuation c = true -> Py.truthy s = true -> ascii_text s = true ->
  Py.startswith (String (Py.lower_char c) x) (Py.lower s) = false.
Proof.
  intros Hc Hs Ha. destruct s as [|a s]; [done|]. simpl in *.
  apply andb_true_iff in Ha as [Ha _].
  apply andb_false_iff. left. apply Ascii.eqb_neq. intros Heq.
  revert Hc Ha Heq. clear.
  destruct c as [[] [] [] [] [] [] [] []]; try discriminate;
    destruct a as [[] [] [] [] [] [] [] []]; discriminate.
Qed.

(** For a search of ASCII text without wildcards, the tails at a character
    that start with the search are as many as the tails that do. *)
Lemma match_contains (s t : string) (b : bool) :
  Py.truthy s = true -> ascii_text s = true -> wildcard_free s = true ->
  List.existsb (Sql.match_from (Py.lower s +:+ "%")) (Sql.char_starts b t) =
  Py.contains (Py.lower t) (Py.lower s).
Proof.
  intros Hs Ha Hw. revert b. induction t as [|c t IH]; intros b.
  - simpl. by rewrite match_prefix.
  - simpl Sql.char_starts.
    change (Py.contains (Py.lower (String c t)) (Py.lower s))
      with (Py.startswith (Py.lower (String c t)) (Py.lower s) ||
            Py.contains (Py.lower t) (Py.lower s)).
    destruct (b && Sql.is_continuation c) eqn:E.
    + apply andb_true_iff in E as [_ Hc]. rewrite IH. simpl Py.lower.
      by rewrite continuation_not_ascii.
    + simpl List.existsb. by rewrite IH, match_prefix.
Qed.

Lemma pattern_ascii (s : string) :
  ascii_text s = true -> ascii_text ("%" +:+ Py.lower s +:+ "%") = true.
Proof.
  intros Ha. apply (ascii_text_app "%"); [done|].
  apply ascii_text_app; [by apply ascii_text_lower|done].
Qed.

(** With ASCII text without wildcards as the search, the LIKE filter is
    the substring test on the name up to its first NUL, ASCII letter case
    aside. *)
Lemma LIKE_contains (s n : string) :
  Py.truthy s = true -> ascii_text s = true -> wildcard_free s = true ->
  Sql.LIKE ("%" +:+ Py.lower s +:+ "%") (Sql.LOWER n) =
  Py.contains (Py.lower (Sql.until_nul n)) (Py.lower s).
Proof.
  intros Hs Ha Hw. unfold Sql.LIKE, Sql.LOWER.
  rewrite until_nul_ascii by by apply pattern_ascii.
  rewrite until_nul_lower.
  change ("%" +:+ Py.lower s +:+ "%") with (String "%" (Py.lower s +:+ "%")).
  rewrite match_percent, (match_contains s) by done.
  by rewrite lower_idem.
Qed.

Lemma filter_ext_bool (P Q : ImageItem -> bool) (l : list ImageItem) :
  (forall r, P r = Q r) -> List.filter P l = List.filter Q l.
Proof.
  intros H. induction l as [|r l IH]; [done|]. simpl. by rewrite H, IH.
Qed.

Lemma length_app (a b : string) :
  String.length (a +:+ b) = String.length a + String.length b.
Proof. induction a as [|c a IH]; [done|]. rewrite append_cons. simpl. by rewrite IH. Qed.

Lemma length_lower (s : string) : String.length (Py.lower s) = String.length s.
Proof. induction s as [|c s IH]; [done|]. simpl. by rewrite IH. Qed.

(** A search of at most 49998 bytes makes a pattern LIKE accepts. *)
Lemma select_like_short (tbl : list ImageItem) (s : string) :
  (N.of_nat (String.length s) + 2 <= Sql.MAX_LIKE_PATTERN_LENGTH)%N ->
  Sql.select_like tbl ("%" +:+ Py.lower s +:+ "%") =
  Return (Sql.order_by_created_at_desc
            (List.filter (like_filter s) tbl)).
Proof.
  intros Hlen. unfold Sql.select_like. destruct tbl as [|r tbl]; [done|].
  assert ((Sql.MAX_LIKE_PATTERN_LENGTH <?
           N.of_nat (String.length ("%" +:+ Py.lower s +:+ "%")))%N = false) as ->;
    [|done].
  apply N.ltb_ge. rewrite !length_app, length_lower. simpl String.length. lia.
Qed.

(** X19.  Without a search, or with an empty one, the listing holds every
    row of the table once, newest first, and the world is as before. *)
Lemma list_images_all (search : option string) (w : World) :
  search = None \/ search = Some "" ->
  exists out, list_images search w = (Return out, w) /\
    out ≡ₚ table w /\ newest_first out.
Proof.
  intros [-> | ->]; exists (Sql.select_all (table w));
    (split; [done|split; [apply order_by_perm|apply order_by_sorted]]).
Qed.

(** X20.  With a non-empty search of ASCII text that holds no NUL, no [%]
    and no [_] and is at most 49998 bytes long, the listing is the rows
    whose name, read up to its first NUL, contains the search, ASCII
    letter case aside, newest first. *)
Lemma list_images_plain_search (s : string) (w : World) :
  Py.truthy s = true -> ascii_text s = true -> wildcard_free s = true ->
  (N.of_nat (String.length s) + 2 <= Sql.MAX_LIKE_PATTERN_LENGTH)%N ->
  exists out, list_images (Some s) w = (Return out, w) /\
    out ≡ₚ List.filter
             (fun r => Py.contains (Py.lower (Sql.until_nul (name r))) (Py.lower s))
             (table w) /\
    newest_first out.
Proof.
  intros Hs Ha Hw Hlen. unfold list_images, bind, db_table, ret, lift. rewrite Hs.
  rewrite select_like_short by done.
  eexists. split; [reflexivity|].
  rewrite (filter_ext_bool _
             (fun r => Py.contains (Py.lower (Sql.until_nul (name r))) (Py.lower s)))
    by (intros r; by apply LIKE_contains).
  split; [apply order_by_perm|apply order_by_sorted].
Qed.

End Listing.

(** C4 at a search the code does not take literally.  The table holds
    [a.png] and [Wall_Stone.PNG]; the search [_] lists both, though only the
    second name contains an underscore. *)
Theorem list_images_underscore_lists_all :
  fst (list_images (Some "_") Sample.stocked) = Return [Sample.row_b; Sample.row_a] /\
  List.filter (fun r => Py.contains (Py.lower (name r)) (Py.lower "_"))
              (table Sample.stocked) = [Sample.row_b].
Proof. split; reflexivity. Qed.

(** * Further properties of the two services *)

(** ** The base name and the classifier *)
Section ClassifierMore.

Lemma contains_char_nil (c : ascii) : Py.contains "" (String c "") = false.
Proof. reflexivity. Qed.

Lemma contains_char_app (c : ascii) (a b : string) :
  Py.contains (a +:+ b) (String c "") =
  Py.contains a (String c "") || Py.contains b (String c "").
Proof.
  induction a as [|x a IH]; [done|].
  rewrite append_cons, !contains_char_cons, IH. apply orb_assoc.
Qed.

Lemma split_pieces_no_sep (sep : ascii) (s : string) :
  Forall (fun p => Py.contains p (String sep "") = false) (Py.split sep s).
Proof.
  induction s as [|c s IH]; simpl; [by repeat constructor|].
  destruct (Ascii.eqb c sep) eqn:Hc; [by constructor|].
  destruct (Py.split sep s) as [|p ps].
  - constructor; [|constructor]. by rewrite contains_char_cons, Hc.
  - apply Forall_cons in IH as [Hp Hps]. constructor; [|done].
    by rewrite contains_char_cons, Hc, Hp.
Qed.

Lemma last_item_Forall (P : string -> Prop) (l : list string) :
  l <> [] -> Forall P l -> P (Py.last_item l).
Proof.
  unfold Py.last_item. induction l as [|x [|y l] IH]; [done| |].
  - intros _ H. by apply Forall_cons in H as [? _].
  - intros _ H. apply Forall_cons in H as [_ H]. by apply IH.
Qed.

Lemma last_split_no_sep (sep : ascii) (s : string) :
  Py.contains (Py.last_item (Py.split sep s)) (String sep "") = false.
Proof.
  apply (last_item_Forall (fun p => Py.contains p (String sep "") = false)).
  - apply split_not_nil.
  - apply split_pieces_no_sep.
Qed.

Lemma string_app_eq (p1 p2 e1 e2 : string) :
  p1 +:+ e1 = p2 +:+ e2 ->
  (exists q, e1 = q +:+ e2) \/ (exists q, e2 = q +:+ e1).
Proof.
  revert p2. induction p1 as [|c p1 IH]; intros p2 H.
  - left. by exists p2.
  - destruct p2 as [|c' p2].
    + right. by exists (String c p1).
    + rewrite !append_cons in H. injection H as _ H. by apply (IH p2).
Qed.

(** Two extensions that end the same name: one ends the other. *)
Lemma endswith_both (low e1 e2 : string) :
  Py.endswith low e1 = true -> Py.endswith low e2 = true ->
  Py.endswith e1 e2 = true \/ Py.endswith e2 e1 = true.
Proof.
  rewrite !endswith_iff. intros [p1 ->] [p2 H].
  destruct (string_app_eq _ _ _ _ H) as [Hq|Hq]; auto.
Qed.

Lemma ext_of_in_found (l : list string) (low : string) :
  Py.truthy (ext_of_in l low) = true ->
  ext_of_in l low ∈ l /\ Py.endswith low (ext_of_in l low) = true.
Proof.
  induction l as [|e l IH]; simpl; [done|].
  destruct (Py.endswith low e) eqn:E.
  - intros _. split; [apply elem_of_cons; by left|done].
  - intros H. destruct (IH H) as [Hin Hend].
    split; [apply elem_of_cons; by right|done].
Qed.

Lemma ext_of_in_none (l : list string) (low : string) :
  Forall (fun e => Py.endswith low e = false) l -> ext_of_in l low = "".
Proof. induction 1 as [|e l He _ IH]; simpl; [done|]. by rewrite He. Qed.

(** In a list where at most one extension ends the name, the scan returns
    that extension wherever it stands. *)
Lemma ext_of_in_unique (l : list string) (low e0 : string) :
  (forall e1 e2, e1 ∈ l -> e2 ∈ l ->
     Py.endswith low e1 = true -> Py.endswith low e2 = true -> e1 = e2) ->
  e0 ∈ l -> Py.endswith low e0 = true -> ext_of_in l low = e0.
Proof.
  induction l as [|e l IH]; intros Huniq Hin Hend; [by apply elem_of_nil in Hin|].
  simpl. destruct (Py.endswith low e) eqn:E.
  - apply Huniq; [apply elem_of_cons; by left|done..].
  - apply elem_of_cons in Hin as [->|Hin]; [congruence|].
    apply IH; [|done..]. intros e1 e2 H1 H2.
    apply Huniq; apply elem_of_cons; by right.
Qed.

Lemma no_suffix_pair_unique (l : list string) (low : string) :
  no_suffix_pair l ->
  forall e1 e2, e1 ∈ l -> e2 ∈ l ->
    Py.endswith low e1 = true -> Py.endswith low e2 = true -> e1 = e2.
Proof.
  intros Hl e1 e2 H1 H2 E1 E2.
  unfold no_suffix_pair in Hl. rewrite Forall_forall in Hl.
  destruct (endswith_both low e1 e2 E1 E2) as [H|H].
  - pose proof (Hl e1 H1) as Hl1. rewrite Forall_forall in Hl1. by apply Hl1.
  - pose proof (Hl e2 H2) as Hl2. rewrite Forall_forall in Hl2.
    symmetry. by apply Hl2.
Qed.

Lemma main_no_suffix_pair : no_suffix_pair Main.SUPPORTED.
Proof.
  repeat constructor; intros H; first [reflexivity | discriminate H].
Qed.

Lemma backend_no_suffix_pair : no_suffix_pair Backend.SUPPORTED.
Proof.
  repeat constructor; intros H; first [reflexivity | discriminate H].
Qed.

Lemma ext_of_in_perm (l l' : list string) (low : string) :
  no_suffix_pair l -> Forall (fun e => Py.truthy e = true) l ->
  l ≡ₚ l' -> ext_of_in l' low = ext_of_in l low.
Proof.
  intros Hl Ht Hperm.
  destruct (Py.truthy (ext_of_in l low)) eqn:E.
  - destruct (ext_of_in_found l low E) as [Hin Hend].
    apply ext_of_in_unique; [|by rewrite <- Hperm|done].
    intros e1 e2 H1 H2. rewrite <- Hperm in H1, H2.
    by apply (no_suffix_pair_unique l low Hl).
  - apply (ext_of_in_empty l low Ht) in E.
    rewrite (ext_of_in_none l low E).
    apply ext_of_in_none. by rewrite <- Hperm.
Qed.

End ClassifierMore.

(** X1.  The name a file is stored under holds no slash and no backslash
    and is a tail of the submitted file name; a file name without either
    separator is kept whole. *)
Theorem base_name_strips_directories (fname : string) :
  Py.contains (base_name fname) "/" = false /\
  Py.contains (base_name fname) "\" = false /\
  (exists dir, fname = dir +:+ base_name fname) /\
  (Py.contains fname "/" = false -> Py.contains fname "\" = false ->
   base_name fname = fname).
Proof.
  repeat split.
  - unfold base_name.
    destruct (last_split_suffix "\" (Py.last_item (Py.split "/" fname)))
      as [pre Hpre].
    pose proof (last_split_no_sep "/" fname) as Hno.
    rewrite Hpre, contains_char_app in Hno.
    by apply orb_false_iff in Hno as [_ ?].
  - apply last_split_no_sep.
  - apply base_name_suffix.
  - intros H1 H2. unfold base_name.
    rewrite (split_no_sep "/" fname H1). unfold Py.last_item at 2. simpl.
    by rewrite (split_no_sep "\" fname H2).
Qed.

Lemma base_name_strips_directories_witness :
  base_name "Icon.PNG" = "Icon.PNG".
Proof.
  apply (proj2 (proj2 (proj2 (base_name_strips_directories "Icon.PNG"))));
    reflexivity.
Defined.

(** X2.  [SUPPORTED] is a set and [ext_of] scans it in whatever order the
    interpreter yields: no listed extension ends another, so the extension
    returned is the same for every order, in both services. *)
Theorem ext_of_any_set_order (l : list string) (fname : string) :
  (l ≡ₚ Main.SUPPORTED -> ext_of_in l (Py.lower fname) = Main.ext_of fname) /\
  (l ≡ₚ Backend.SUPPORTED -> ext_of_in l (Py.lower fname) = Backend.ext_of fname).
Proof.
  split; intros Hperm.
  - apply ext_of_in_perm; [apply main_no_suffix_pair| |done].
    eapply Forall_impl; [apply main_supported_plain|]. by intros e (H & _).
  - apply ext_of_in_perm; [apply backend_no_suffix_pair| |done].
    eapply Forall_impl; [apply backend_supported_plain|]. by intros e (H & _).
Qed.

Lemma ext_of_any_set_order_witness :
  ext_of_in [".bmp"; ".webp"; ".jpeg"; ".jpg"; ".png"] (Py.lower "Photo.JPEG") =
  Main.ext_of "Photo.JPEG".
Proof.
  apply (proj1 (ext_of_any_set_order _ "Photo.JPEG")).
  symmetry. apply (Permutation_rev Main.SUPPORTED).
Defined.

(** X3.  For a listed extension, [ext_of] returns it exactly when the
    lowercased name ends with it; both services. *)
Theorem ext_of_iff_suffix (fname e : string) :
  (e ∈ Main.SUPPORTED ->
   Main.ext_of fname = e <-> Py.endswith (Py.lower fname) e = true) /\
  (e ∈ Backend.SUPPORTED ->
   Backend.ext_of fname = e <-> Py.endswith (Py.lower fname) e = true).
Proof.
  split; intros Hin; split.
  - intros <-. apply ext_of_in_found.
    pose proof main_supported_plain as Hp. rewrite Forall_forall in Hp.
    by destruct (Hp _ Hin) as (? & _).
  - intros Hend. apply ext_of_in_unique; [|done..].
    apply no_suffix_pair_unique, main_no_suffix_pair.
  - intros <-. apply ext_of_in_found.
    pose proof backend_supported_plain as Hp. rewrite Forall_forall in Hp.
    by destruct (Hp _ Hin) as (? & _).
  - intros Hend. apply ext_of_in_unique; [|done..].
    apply no_suffix_pair_unique, backend_no_suffix_pair.
Qed.

Lemma ext_of_iff_suffix_witness : Main.ext_of "a.b.WebP" = ".webp".
Proof.
  apply (proj1 (ext_of_iff_suffix "a.b.WebP" ".webp")).
  - apply list_elem_of_In. simpl. auto.
  - reflexivity.
Defined.

(** X4.  Every name the imageio service classifies, the Pillow service
    classifies with the same extension; the Pillow list only adds to it. *)
Theorem backend_ext_of_extends_main (fname : string) :
  Py.truthy (Main.ext_of fname) = true ->
  Backend.ext_of fname = Main.ext_of fname.
Proof.
  intros H. destruct (ext_of_in_found _ _ H) as [Hin Hend].
  apply ext_of_in_unique; [|clear Hend|done].
  - apply no_suffix_pair_unique, backend_no_suffix_pair.
  - assert (Forall (fun e => e ∈ Backend.SUPPORTED) Main.SUPPORTED) as Hsub
      by (repeat constructor).
    rewrite Forall_forall in Hsub. by apply Hsub.
Qed.

Lemma backend_ext_of_extends_main_witness :
  Backend.ext_of "Wall.BMP" = Main.ext_of "Wall.BMP".
Proof. apply (backend_ext_of_extends_main "Wall.BMP"). reflexivity. Defined.

(** ** What one turn of the upload loop can do *)
Section UploadTurn.
Context (cfg : Config) (env : Env) (io : ImageIO) (pil : Pillow).

Lemma existsb_id_taken (tbl : list ImageItem) (i : string) :
  List.existsb (fun x => String.eqb (id x) i) tbl = false ->
  i ∉ List.map id tbl.
Proof.
  induction tbl as [|r tbl IH]; simpl; [intros _; apply not_elem_of_nil|].
  intros [Hr Ht]%orb_false_iff. apply not_elem_of_cons. split; [|by apply IH].
  apply String.eqb_neq in Hr. congruence.
Qed.

(** A turn of the imageio loop, read backwards from its result. *)
Lemma main_upload_one_inv (f : UploadFile) (w w' : World) (r : option ImageItem) :
  Main.upload_one cfg env io f w = (Return r, w') ->
  match r with
  | None =>
      table w' = table w /\
      (files w' = files w \/
       exists d, files w' = <[main_path cfg (uuid4_hex env (tick w)) := d]> (files w))
  | Some item =>
      exists png fmt,
        Main.to_png_bytes io (content f) = Return (png, width item, height item, fmt) /\
        Py.truthy (Main.ext_of (base_name (filename f))) = true /\
        id item = uuid4_hex env (tick w) /\
        name item = base_name (filename f) /\
        url item = Main.build_public_url cfg (main_path cfg (id item)) /\
        created_at item = utcnow_isoformat env (S (tick w)) /\
        write_faults env (main_path cfg (id item)) = false /\
        (id item ∉ List.map id (table w)) /\
        table w' = table w ++ [item] /\
        files w' = <[main_path cfg (id item) := png]> (files w) /\
        tick w' = S (tick w)
  end.
Proof.
  unfold Main.upload_one.
  destruct (Py.truthy (Main.ext_of (base_name (filename f)))) eqn:Hext; simpl negb;
    [|intros [= <- <-]; auto].
  unfold try_except, bind, Main.store_image, bind, lift.
  destruct (Main.to_png_bytes io (content f)) as [[[[png wd] ht] fmt]|e] eqn:E;
    [|destruct e; intros [= <- <-]; auto].
  unfold uuid4, write_file, utcnow, db_insert, Sql.insert, main_path. simpl.
  destruct (write_faults env _) eqn:Hw; simpl.
  { destruct (write_reached env _); intros [= <- <-]; simpl;
      (split; [done|]); [right; by eexists|by left]. }
  destruct (List.existsb _ (table w)) eqn:Hx; simpl.
  - intros [= <- <-]. simpl. split; [done|]. right. by eexists.
  - intros [= <- <-]. simpl. exists png, fmt.
    repeat split; try done. by apply existsb_id_taken.
Qed.

Lemma backend_upload_one_inv (f : UploadFile) (w w' : World) (r : option ImageItem) :
  Backend.upload_one cfg env pil f w = (Return r, w') ->
  match r with
  | None =>
      table w' = table w /\
      (files w' = files w \/
       exists d, files w' = <[backend_path cfg (uuid4_hex env (tick w)) := d]> (files w))
  | Some item =>
      exists png fmt,
        Backend.to_png_bytes pil (content f) = Return (png, width item, height item, fmt) /\
        Py.truthy (Backend.ext_of (base_name (filename f))) = true /\
        id item = uuid4_hex env (tick w) /\
        name item = base_name (filename f) /\
        url item = "/static/images/" +:+ id item +:+ ".png" /\
        created_at item = utcnow_isoformat env (S (tick w)) /\
        write_faults env (backend_path cfg (id item)) = false /\
        (id item ∉ List.map id (table w)) /\
        table w' = table w ++ [item] /\
        files w' = <[backend_path cfg (id item) := png]> (files w) /\
        tick w' = S (tick w)
  end.
Proof.
  unfold Backend.upload_one.
  destruct (Py.truthy (Backend.ext_of (base_name (filename f)))) eqn:Hext; simpl negb;
    [|intros [= <- <-]; auto].
  unfold try_except, bind, Backend.store_image, bind, lift.
  destruct (Backend.to_png_bytes pil (content f)) as [[[[png wd] ht] fmt]|e] eqn:E;
    [|destruct e; intros [= <- <-]; auto].
  unfold uuid4, write_file, utcnow, db_insert, Sql.insert, backend_path. simpl.
  destruct (write_faults env _) eqn:Hw; simpl.
  { destruct (write_reached env _); intros [= <- <-]; simpl;
      (split; [done|]); [right; by eexists|by left]. }
  destruct (List.existsb _ (table w)) eqn:Hx; simpl.
  - intros [= <- <-]. simpl. split; [done|]. right. by eexists.
  - intros [= <- <-]. simpl. exists png, fmt.
    repeat split; try done. by apply existsb_id_taken.
Qed.

End UploadTurn.

(** ** What a whole batch can do *)
Section UploadBatch.
Context (cfg : Config) (env : Env) (io : ImageIO) (pil : Pillow).

Lemma batch_facts_nil (path : string -> Path) (w : World) :
  batch_facts path [] w [] w.
Proof.
  unfold batch_facts. rewrite app_nil_r.
  repeat split; [constructor|constructor|constructor|constructor|done].
Qed.

Lemma batch_facts_skip (path : string -> Path) (f : UploadFile)
    (fs : list UploadFile) (w w1 w' : World) (out : list ImageItem) :
  table w1 = table w ->
  (forall p, is_Some (files w !! p) -> is_Some (files w1 !! p)) ->
  batch_facts path fs w1 out w' ->
  batch_facts path (f :: fs) w out w'.
Proof.
  intros Ht Hf (H1 & H2 & H3 & H4 & H5 & H6). rewrite Ht in H1, H4.
  repeat split; [done|by apply sublist_cons|done..|auto].
Qed.

Lemma batch_facts_keep (path : string -> Path) (f : UploadFile)
    (fs : list UploadFile) (w w1 w' : World) (item : ImageItem)
    (out : list ImageItem) (png : bytes) :
  name item = base_name (filename f) ->
  id item ∉ List.map id (table w) ->
  table w1 = table w ++ [item] ->
  files w1 = <[path (id item) := png]> (files w) ->
  batch_facts path fs w1 out w' ->
  batch_facts path (f :: fs) w (item :: out) w'.
Proof.
  intros Hn Hid Ht Hf (H1 & H2 & H3 & H4 & H5 & H6).
  assert (forall p, is_Some (files w !! p) -> is_Some (files w1 !! p)) as Hmono.
  { intros p Hp. rewrite Hf.
    destruct (decide (path (id item) = p)) as [<-|Hne].
    - rewrite lookup_insert_eq. by eexists.
    - by rewrite lookup_insert_ne. }
  rewrite Ht in H1, H4. rewrite Forall_forall in H4.
  repeat split.
  - by rewrite H1, <- app_assoc.
  - simpl. rewrite Hn. by apply sublist_skip.
  - simpl. apply NoDup_cons. split; [|done].
    intros Hin. apply list_elem_of_In, in_map_iff in Hin as (x & Hx & Hin).
    apply (H4 x); [by apply list_elem_of_In|].
    rewrite map_app, elem_of_app. right. rewrite Hx. simpl. apply elem_of_cons. by left.
  - constructor; [done|]. apply Forall_forall. intros x Hx Hin.
    apply (H4 x Hx). rewrite map_app, elem_of_app. by left.
  - constructor; [|done]. apply H6. rewrite Hf, lookup_insert_eq. by eexists.
  - auto.
Qed.

Lemma main_loop_facts (fs : list UploadFile) :
  forall (acc : list ImageItem) (w : World) (res : list ImageItem) (w' : World),
  Main.upload_loop cfg env io fs acc w = (Return res, w') ->
  exists out, res = acc ++ out /\ batch_facts (main_path cfg) fs w out w'.
Proof.
  induction fs as [|f fs IH]; intros acc w res w' H.
  - injection H as <- <-. exists []. rewrite app_nil_r.
    split; [done|apply batch_facts_nil].
  - destruct (main_upload_one_returns cfg env io f w) as (r & w1 & H1).
    rewrite (main_loop_step _ _ _ _ _ _ _ _ _ H1) in H.
    apply IH in H as (out & -> & Hfacts).
    apply main_upload_one_inv in H1. destruct r as [item|].
    + destruct H1 as (png & fmt & _ & _ & _ & Hn & _ & _ & _ & Hid & Ht & Hf & _).
      exists (item :: out). split; [by rewrite <- app_assoc|].
      by apply (batch_facts_keep _ _ _ _ w1 _ _ _ png).
    + destruct H1 as (Ht & Hf). exists out. split; [done|].
      apply (batch_facts_skip _ _ _ _ w1); [done| |done].
      intros p Hp. destruct Hf as [->|[d ->]]; [done|].
      destruct (decide (main_path cfg (uuid4_hex env (tick w)) = p)) as [<-|Hne].
      * rewrite lookup_insert_eq. by eexists.
      * by rewrite lookup_insert_ne.
Qed.

Lemma backend_loop_facts (fs : list UploadFile) :
  forall (acc : list ImageItem) (w : World) (res : list ImageItem) (w' : World),
  Backend.upload_loop cfg env pil fs acc w = (Return res, w') ->
  exists out, res = acc ++ out /\ batch_facts (backend_path cfg) fs w out w'.
Proof.
  induction fs as [|f fs IH]; intros acc w res w' H.
  - injection H as <- <-. exists []. rewrite app_nil_r.
    split; [done|apply batch_facts_nil].
  - destruct (backend_upload_one_returns cfg env pil f w) as (r & w1 & H1).
    rewrite (backend_loop_step _ _ _ _ _ _ _ _ _ H1) in H.
    apply IH in H as (out & -> & Hfacts).
    apply backend_upload_one_inv in H1. destruct r as [item|].
    + destruct H1 as (png & fmt & _ & _ & _ & Hn & _ & _ & _ & Hid & Ht & Hf & _).
      exists (item :: out). split; [by rewrite <- app_assoc|].
      by apply (batch_facts_keep _ _ _ _ w1 _ _ _ png).
    + destruct H1 as (Ht & Hf). exists out. split; [done|].
      apply (batch_facts_skip _ _ _ _ w1); [done| |done].
      intros p Hp. destruct Hf as [->|[d ->]]; [done|].
      destruct (decide (backend_path cfg (uuid4_hex env (tick w)) = p)) as [<-|Hne].
      * rewrite lookup_insert_eq. by eexists.
      * by rewrite lookup_insert_ne.
Qed.

Lemma main_upload_facts (fs : list UploadFile) (w w' : World)
    (out : list ImageItem) :
  Main.upload cfg env io fs w = (Return out, w') ->
  batch_facts (main_path cfg) fs w out w'.
Proof.
  destruct fs as [|f fs]; [done|]. intros H.
  apply main_loop_facts in H as (out' & -> & H). exact H.
Qed.

Lemma backend_upload_facts (fs : list UploadFile) (w w' : World)
    (out : list ImageItem) :
  Backend.upload cfg env pil fs w = (Return out, w') ->
  batch_facts (backend_path cfg) fs w out w'.
Proof.
  destruct fs as [|f fs]; [done|]. intros H.
  apply backend_loop_facts in H as (out' & -> & H). exact H.
Qed.

End UploadBatch.

(** ** The batch as a whole: leaf statements *)

Lemma sample_batch_main :
  Main.upload Sample.cfg Sample.env Sample.io Sample.batch Sample.empty_world =
  (Return Sample.batch_out, Sample.after_batch).
Proof. reflexivity. Qed.

Lemma sample_batch_backend :
  Backend.upload Sample.cfg Sample.env Sample.pil Sample.batch Sample.empty_world =
  (Return Sample.batch_out, Sample.after_batch_pil).
Proof. reflexivity. Qed.

Lemma backend_upload_one_unsupported (cfg : Config) (env : Env) (pil : Pillow)
    (f : UploadFile) (w : World) :
  Py.truthy (Backend.ext_of (filename f)) = false ->
  Backend.upload_one cfg env pil f w = (Return None, w).
Proof.
  intros H. unfold Backend.upload_one.
  by rewrite backend_ext_of_base_name, H.
Qed.

(** X5.  The loop answers a batch as it answers the batch without the files
    of unsupported name: classification is a filter in front of the work,
    in both services. *)
Theorem upload_loop_filters_by_name (cfg : Config) (env : Env) (io : ImageIO)
    (pil : Pillow) (fs : list UploadFile) (out : list ImageItem) (w : World) :
  Main.upload_loop cfg env io fs out w =
  Main.upload_loop cfg env io
    (List.filter (fun f => Py.truthy (Main.ext_of (filename f))) fs) out w /\
  Backend.upload_loop cfg env pil fs out w =
  Backend.upload_loop cfg env pil
    (List.filter (fun f => Py.truthy (Backend.ext_of (filename f))) fs) out w.
Proof.
  split; revert out w; induction fs as [|f fs IH]; intros out w; try done;
    cbn [List.filter].
  - destruct (Py.truthy (Main.ext_of (filename f))) eqn:E.
    + destruct (main_upload_one_returns cfg env io f w) as (r & w1 & H1).
      rewrite !(main_loop_step _ _ _ _ _ _ _ _ _ H1). apply IH.
    + rewrite (main_loop_step _ _ _ _ _ _ _ _ _
                 (main_upload_one_unsupported cfg env io f w E)). apply IH.
  - destruct (Py.truthy (Backend.ext_of (filename f))) eqn:E.
    + destruct (backend_upload_one_returns cfg env pil f w) as (r & w1 & H1).
      rewrite !(backend_loop_step _ _ _ _ _ _ _ _ _ H1). apply IH.
    + rewrite (backend_loop_step _ _ _ _ _ _ _ _ _
                 (backend_upload_one_unsupported cfg env pil f w E)). apply IH.
Qed.

(** X6.  The records an upload returns are the rows the table gained, in
    the same order; their names are base names of submitted files, in
    submission order, at most one per file.  Both services. *)
Theorem upload_returns_new_rows (cfg : Config) (env : Env) (io : ImageIO)
    (pil : Pillow) (fs : list UploadFile) (w w' : World) (out : list ImageItem) :
  Main.upload cfg env io fs w = (Return out, w') \/
  Backend.upload cfg env pil fs w = (Return out, w') ->
  table w' = table w ++ out /\
  sublist (List.map name out) (List.map (fun f => base_name (filename f)) fs) /\
  length out <= length fs.
Proof.
  intros H.
  assert (exists path, batch_facts path fs w out w') as (path & Ht & Hs & _).
  { destruct H as [H|H]; eexists.
    - by apply (main_upload_facts cfg env io).
    - by apply (backend_upload_facts cfg env pil). }
  repeat split; [done..|].
  apply sublist_length in Hs. by rewrite !length_map in Hs.
Qed.

Lemma upload_returns_new_rows_witness :
  table Sample.after_batch = table Sample.empty_world ++ Sample.batch_out /\
  table Sample.after_batch_pil = table Sample.empty_world ++ Sample.batch_out.
Proof.
  split.
  - apply (upload_returns_new_rows Sample.cfg Sample.env Sample.io Sample.pil
             Sample.batch Sample.empty_world Sample.after_batch Sample.batch_out).
    left. exact sample_batch_main.
  - apply (upload_returns_new_rows Sample.cfg Sample.env Sample.io Sample.pil
             Sample.batch Sample.empty_world Sample.after_batch_pil Sample.batch_out).
    right. exact sample_batch_backend.
Defined.

(** X7.  The identifiers of the records an upload returns are pairwise
    distinct and were not in the table; a table whose ids were unique has
    unique ids afterwards, whatever the identifier source yields.  Both
    services. *)
Theorem upload_keeps_ids_unique (cfg : Config) (env : Env) (io : ImageIO)
    (pil : Pillow) (fs : list UploadFile) (w w' : World) (out : list ImageItem) :
  Main.upload cfg env io fs w = (Return out, w') \/
  Backend.upload cfg env pil fs w = (Return out, w') ->
  NoDup (List.map id out) /\
  Forall (fun item => id item ∉ List.map id (table w)) out /\
  (NoDup (List.map id (table w)) -> NoDup (List.map id (table w'))).
Proof.
  intros H.
  assert (exists path, batch_facts path fs w out w')
    as (path & Ht & _ & Hnd & Hnew & _).
  { destruct H as [H|H]; eexists.
    - by apply (main_upload_facts cfg env io).
    - by apply (backend_upload_facts cfg env pil). }
  repeat split; [done..|].
  intros Hw. rewrite Ht, map_app. apply NoDup_app. repeat split; [done| |done].
  intros i Hi Hout. apply list_elem_of_In, in_map_iff in Hout as (x & <- & Hx).
  rewrite Forall_forall in Hnew. by apply (Hnew x); [apply list_elem_of_In|].
Qed.

Lemma upload_keeps_ids_unique_witness :
  NoDup (List.map id Sample.batch_out) /\
  NoDup (List.map id (table Sample.after_batch)).
Proof.
  destruct (upload_keeps_ids_unique Sample.cfg Sample.env Sample.io Sample.pil
              Sample.batch Sample.empty_world Sample.after_batch Sample.batch_out)
    as (H1 & _ & H3).
  - left. exact sample_batch_main.
  - split; [exact H1|]. apply H3. constructor.
Defined.

Lemma select_url_app_absent (l k : list ImageItem) (i : string) :
  i ∉ List.map id l -> Sql.select_url (l ++ k) i = Sql.select_url k i.
Proof.
  induction l as [|r l IH]; simpl; [done|].
  rewrite not_elem_of_cons. intros [Hne Hl].
  destruct (String.eqb_spec (id r) i) as [Heq|_]; [congruence|]. by apply IH.
Qed.

Lemma select_url_unique (k : list ImageItem) (item : ImageItem) :
  NoDup (List.map id k) -> item ∈ k ->
  Sql.select_url k (id item) = Some (url item).
Proof.
  induction k as [|r k IH]; simpl; [by intros _ ?%elem_of_nil|].
  rewrite NoDup_cons. intros [Hr Hk] [->|Hin]%elem_of_cons.
  - by rewrite String.eqb_refl.
  - destruct (String.eqb_spec (id r) (id item)) as [Heq|_]; [|by apply IH].
    destruct Hr. rewrite Heq. apply list_elem_of_In, in_map.
    by apply list_elem_of_In.
Qed.

(** X8.  After an upload, the lookup by id that [delete_image] performs
    finds every returned record and yields the url the record carries.
    Both services. *)
Theorem upload_then_lookup (cfg : Config) (env : Env) (io : ImageIO)
    (pil : Pillow) (fs : list UploadFile) (w w' : World) (out : list ImageItem)
    (item : ImageItem) :
  Main.upload cfg env io fs w = (Return out, w') \/
  Backend.upload cfg env pil fs w = (Return out, w') ->
  item ∈ out ->
  Sql.select_url (table w') (id item) = Some (url item).
Proof.
  intros H Hin.
  assert (exists path, batch_facts path fs w out w')
    as (path & Ht & _ & Hnd & Hnew & _).
  { destruct H as [H|H]; eexists.
    - by apply (main_upload_facts cfg env io).
    - by apply (backend_upload_facts cfg env pil). }
  rewrite Forall_forall in Hnew.
  rewrite Ht, select_url_app_absent by by apply Hnew.
  by apply select_url_unique.
Qed.

Lemma upload_then_lookup_witness :
  Sql.select_url (table Sample.after_batch) "b0f3c" =
  Some "/static/images/b0f3c.png".
Proof.
  apply (upload_then_lookup Sample.cfg Sample.env Sample.io Sample.pil
           Sample.batch Sample.empty_world Sample.after_batch Sample.batch_out
           (mkItem "b0f3c" "photo.jpeg" 3 2 "/static/images/b0f3c.png"
                   "2024-05-03T10:00:00")).
  - left. exact sample_batch_main.
  - apply list_elem_of_In. simpl. auto.
Defined.

(** X9.  An upload removes no file, and every record it returns has a file
    at [<id>.png] in the directory the service stores images in.  Both
    services. *)
Theorem upload_leaves_files (cfg : Config) (env : Env) (io : ImageIO)
    (pil : Pillow) (fs : list UploadFile) (w w' : World) (out : list ImageItem) :
  (Main.upload cfg env io fs w = (Return out, w') ->
   Forall (fun item => is_Some (files w' !! main_path cfg (id item))) out /\
   forall p, is_Some (files w !! p) -> is_Some (files w' !! p)) /\
  (Backend.upload cfg env pil fs w = (Return out, w') ->
   Forall (fun item => is_Some (files w' !! backend_path cfg (id item))) out /\
   forall p, is_Some (files w !! p) -> is_Some (files w' !! p)).
Proof.
  split; intros H.
  - apply (main_upload_facts cfg env io) in H as (_ & _ & _ & _ & H5 & H6). auto.
  - apply (backend_upload_facts cfg env pil) in H as (_ & _ & _ & _ & H5 & H6). auto.
Qed.

Lemma upload_leaves_files_witness :
  Forall (fun item => is_Some (files Sample.after_batch
                                 !! main_path Sample.cfg (id item)))
         Sample.batch_out.
Proof.
  apply (proj1 (upload_leaves_files Sample.cfg Sample.env Sample.io Sample.pil
                  Sample.batch Sample.empty_world Sample.after_batch
                  Sample.batch_out)).
  exact sample_batch_main.
Defined.

(** ** From a stored url back to the path *)
Section UrlToPath.

Lemma startswith_slash_contains (s : string) :
  Py.contains s "/" = false -> Py.startswith s "/" = false.
Proof. destruct s; simpl; [done|]. by intros [? _]%orb_false_iff. Qed.

Lemma plain_part_facts (n : string) :
  plain_part n = true ->
  n <> "" /\ n <> "." /\ Py.contains n "/" = false.
Proof.
  unfold plain_part. intros [[H1 H2]%andb_true_iff H3]%andb_true_iff.
  apply negb_true_iff in H2, H3. apply String.eqb_neq in H2.
  repeat split; [|done..]. intros ->. done.
Qed.

Lemma components_plain (n : string) :
  plain_part n = true -> Pathlib.components n = [n].
Proof.
  intros (H1 & H2 & H3)%plain_part_facts. unfold Pathlib.components.
  rewrite (split_no_sep "/" n H3). simpl.
  apply String.eqb_neq in H1, H2. by rewrite H1, H2.
Qed.

Lemma joinpath_plain (base : Path) (n : string) :
  plain_part n = true -> Pathlib.joinpath base n = base ++ [n].
Proof.
  intros Hn. unfold Pathlib.joinpath. rewrite components_plain by done.
  apply plain_part_facts in Hn as (_ & _ & Hn).
  by rewrite startswith_slash_contains.
Qed.

Lemma split_app_sep (sep : ascii) (x rest : string) :
  Py.contains x (String sep "") = false ->
  Py.split sep (x +:+ String sep rest) = x :: Py.split sep rest.
Proof.
  induction x as [|c x IH]; intros Hx.
  - simpl. by rewrite Ascii.eqb_refl.
  - rewrite contains_char_cons in Hx. apply orb_false_iff in Hx as [Hc Hx].
    rewrite append_cons. simpl. by rewrite Hc, IH.
Qed.

Lemma split_join_inv (sep : ascii) (rel : list string) :
  rel <> [] ->
  Forall (fun p => Py.contains p (String sep "") = false) rel ->
  Py.split sep (Py.join (String sep "") rel) = rel.
Proof.
  induction rel as [|x [|y rel] IH]; intros Hne Hall; [done| |].
  - apply Forall_cons in Hall as [Hx _]. simpl. by apply split_no_sep.
  - apply Forall_cons in Hall as [Hx Hall].
    rewrite join_cons. change (String sep "" +:+ ?r) with (String sep r).
    rewrite split_app_sep by done. f_equal. by apply IH.
Qed.

Lemma filter_plain (rel : list string) :
  Forall (fun p => plain_part p = true) rel ->
  List.filter (fun c => negb (String.eqb c "") && negb (String.eqb c ".")) rel = rel.
Proof.
  induction 1 as [|x rel Hx _ IH]; simpl; [done|].
  apply plain_part_facts in Hx as (H1 & H2 & _).
  apply String.eqb_neq in H1, H2. by rewrite H1, H2, IH.
Qed.

Lemma components_join (rel : list string) :
  Forall (fun p => plain_part p = true) rel ->
  Pathlib.components (Py.join "/" rel) = rel.
Proof.
  intros Hall. unfold Pathlib.components.
  destruct rel as [|x rel]; [done|].
  assert (Forall (fun p => Py.contains p "/" = false) (x :: rel)) as Hno.
  { eapply Forall_impl; [exact Hall|]. by intros p (_ & _ & ?)%plain_part_facts. }
  rewrite (split_join_inv "/" (x :: rel)) by done.
  by apply filter_plain.
Qed.

Lemma startswith_app_head (a rest : string) :
  a <> "" -> Py.startswith (a +:+ rest) "/" = Py.startswith a "/".
Proof. destruct a; [done|]. intros _. rewrite append_cons. simpl. by rewrite !andb_true_r. Qed.

Lemma join_relative (rel : list string) :
  Forall (fun p => plain_part p = true) rel ->
  Py.startswith (Py.join "/" rel) "/" = false.
Proof.
  destruct 1 as [|x rel Hx Hrel]; [done|].
  apply plain_part_facts in Hx as (H1 & _ & H3).
  destruct rel as [|y rel].
  - by apply startswith_slash_contains.
  - rewrite join_cons, startswith_app_head by done.
    by apply startswith_slash_contains.
Qed.

Lemma plain_not_anchor (a : string) :
  plain_part a = true -> Pathlib.is_anchor a = false.
Proof.
  intros Ha. destruct (Pathlib.is_anchor a) eqn:E; [|done].
  unfold Pathlib.is_anchor in E.
  apply orb_true_iff in E as [->%String.eqb_eq | ->%String.eqb_eq]; done.
Qed.

(** [base / rel.as_posix()] is [base] extended by the parts of [rel]. *)
Lemma joinpath_as_posix (base : Path) (rel : list string) :
  Forall (fun p => plain_part p = true) rel ->
  Pathlib.joinpath base (Pathlib.as_posix rel) = base ++ rel.
Proof.
  intros Hall. destruct rel as [|a rel]; [reflexivity|].
  assert (Pathlib.is_anchor a = false) as Ha.
  { apply plain_not_anchor. by apply Forall_cons in Hall as [? _]. }
  unfold Pathlib.as_posix. rewrite Ha. unfold Pathlib.joinpath.
  by rewrite join_relative, components_join.
Qed.

Lemma components_all_plain (s : string) :
  Forall (fun p => plain_part p = true) (Pathlib.components s).
Proof.
  apply Forall_forall. intros c Hc. unfold Pathlib.components in Hc.
  apply list_elem_of_In, filter_In in Hc as [Hin Hc].
  apply andb_true_iff in Hc as [H1 H2].
  pose proof (split_pieces_no_sep "/" s) as Hno. rewrite Forall_forall in Hno.
  apply list_elem_of_In in Hin. apply Hno in Hin.
  unfold plain_part. rewrite H2, Hin. destruct c; [done|]. done.
Qed.

Lemma name_snoc (p : Path) (n : string) :
  plain_part n = true -> Pathlib.name (p ++ [n]) = n.
Proof.
  intros Hn%plain_not_anchor.
  destruct p as [|a p]; simpl.
  - by rewrite Hn.
  - destruct (Pathlib.is_anchor a).
    + apply last_last.
    + apply (last_last (a :: p)).
Qed.

Lemma last_split_api (n : string) :
  Py.contains n "/" = false ->
  Py.last_item (Py.split "/" ("/api/file/" +:+ n)) = n.
Proof.
  intros Hn.
  change ("/api/file/" +:+ n)
    with ("" +:+ String "/" ("api" +:+ String "/" ("file" +:+ String "/" n))).
  rewrite !split_app_sep by done. by rewrite split_no_sep.
Qed.

Lemma suffix_rel_plain (p base rel : list string) :
  base <> [] -> p = base ++ rel ->
  Forall (fun c => plain_part c = true) (tail p) ->
  Forall (fun c => plain_part c = true) rel.
Proof.
  intros Hne -> Hall. destruct base as [|b base]; [done|].
  simpl in Hall. by apply Forall_app in Hall as [_ ?].
Qed.

Lemma parse_tail_plain (s n : string) :
  plain_part n = true ->
  Forall (fun c => plain_part c = true) (tail (Pathlib.parse s ++ [n])).
Proof.
  intros Hn. pose proof (components_all_plain s) as Hc.
  unfold Pathlib.parse. destruct (Py.truthy (Pathlib.root_of s)); simpl.
  - apply Forall_app. split; [done|by constructor].
  - destruct (Pathlib.components s) as [|c cs]; simpl; [constructor|].
    apply Forall_cons in Hc as [_ Hc]. apply Forall_app.
    split; [done|by constructor].
Qed.

(** The path [delete_image] works out from the url [build_public_url]
    gave a file of the image directory is the path of that file. *)
Lemma main_path_of_url_build (cfg : Config) (n : string) :
  plain_part n = true ->
  Main.path_of_url cfg (Main.build_public_url cfg (Main.IMAGE_DIR cfg ++ [n])) =
  Some (Main.IMAGE_DIR cfg ++ [n]).
Proof.
  intros Hn. unfold Main.build_public_url.
  destruct (Pathlib.relative_to _ _) as [rel|] eqn:E.
  - apply relative_to_iff in E; [|apply static_dir_not_nil].
    assert (Forall (fun c => plain_part c = true) rel) as Hrel.
    { unfold Main.IMAGE_DIR in E. destruct (IMAGE_DIR_env cfg) as [s|].
      - eapply suffix_rel_plain; [apply static_dir_not_nil|exact E|].
        by apply parse_tail_plain.
      - rewrite <- app_assoc in E. apply app_inv_head in E as <-.
        by repeat constructor. }
    change (Main.path_of_url cfg ("/static/" +:+ Pathlib.as_posix rel))
      with (Some (Pathlib.joinpath (Main.STATIC_DIR cfg) (Pathlib.as_posix rel))).
    by rewrite joinpath_as_posix, E.
  - rewrite name_snoc by done.
    change (Main.path_of_url cfg ("/api/file/" +:+ n))
      with (Some (Pathlib.joinpath (Main.IMAGE_DIR cfg)
                    (Py.last_item (Py.split "/" ("/api/file/" +:+ n))))).
    apply plain_part_facts in Hn as Hn'. destruct Hn' as (_ & _ & Hs).
    by rewrite last_split_api, joinpath_plain.
Qed.

Lemma png_name_plain (i : string) :
  Py.contains i "/" = false -> plain_part (i +:+ ".png") = true.
Proof.
  intros Hi. unfold plain_part.
  rewrite contains_char_app, Hi.
  destruct i as [|a i]; [reflexivity|].
  rewrite append_cons. simpl.
  destruct (Ascii.eqb a "."); [|reflexivity]. destruct i; reflexivity.
Qed.

End UrlToPath.

(** ** Upload, then fetch or delete *)
Section AfterUpload.
Context (cfg : Config) (env : Env).

Lemma main_upload_single (io : ImageIO) (f : UploadFile) (w w' : World)
    (item : ImageItem) :
  Main.upload cfg env io [f] w = (Return [item], w') ->
  Main.upload_one cfg env io f w = (Return (Some item), w').
Proof.
  destruct (main_upload_one_returns cfg env io f w) as (r & w1 & H1).
  unfold Main.upload. rewrite (main_loop_step _ _ _ _ _ _ _ _ _ H1). simpl.
  unfold ret. destruct r; intros [= <- <-]; done.
Qed.

Lemma backend_upload_single (pil : Pillow) (f : UploadFile) (w w' : World)
    (item : ImageItem) :
  Backend.upload cfg env pil [f] w = (Return [item], w') ->
  Backend.upload_one cfg env pil f w = (Return (Some item), w').
Proof.
  destruct (backend_upload_one_returns cfg env pil f w) as (r & w1 & H1).
  unfold Backend.upload. rewrite (backend_loop_step _ _ _ _ _ _ _ _ _ H1). simpl.
  unfold ret. destruct r; intros [= <- <-]; done.
Qed.

(** A file that is there, on a disk that lets go of it, is removed. *)
Lemma unlink_present (dbp p : Path) (d : bytes) (w : World) :
  files w !! p = Some d -> unlink_faults env p = false ->
  try_except (there <- path_exists env dbp p ;;
              if there then unlink env p else ret tt)
             (fun _ => ret tt) w =
  (Return tt, set_files (delete p (files w)) w).
Proof.
  intros Hp Hu. unfold try_except, bind, path_exists, unlink, visible.
  rewrite bool_decide_eq_true_2
    by (apply lookup_insert_is_Some'; right; by eexists).
  by rewrite Hu, Hp.
Qed.

Lemma delete_where_id_last (tbl : list ImageItem) (item : ImageItem) :
  id item ∉ List.map id tbl ->
  Sql.delete_where_id (tbl ++ [item]) (id item) = tbl.
Proof.
  intros H. unfold Sql.delete_where_id. rewrite List.filter_app. simpl.
  rewrite String.eqb_refl. simpl. rewrite app_nil_r.
  by apply delete_where_id_absent.
Qed.

Lemma select_url_last (tbl : list ImageItem) (item : ImageItem) :
  id item ∉ List.map id tbl ->
  Sql.select_url (tbl ++ [item]) (id item) = Some (url item).
Proof.
  intros H. rewrite select_url_app_absent by done. simpl.
  by rewrite String.eqb_refl.
Qed.

Lemma db_path_not_image (i : string) : main_path cfg i <> Main.DB_PATH cfg.
Proof.
  unfold main_path, Main.DB_PATH. intros H. apply app_inv_head in H.
  injection H as H.
  assert (Py.endswith "images.db" ".png" = true) as Hend; [|done].
  apply endswith_iff. by exists i.
Qed.

Lemma backend_remove_path (n : string) :
  plain_part n = true ->
  Pathlib.joinpath (BASE_DIR cfg) (Py.lstrip "/" ("/static/images/" +:+ n)) =
  Backend.IMG_DIR cfg ++ [n].
Proof.
  intros Hn. apply plain_part_facts in Hn as Hn'. destruct Hn' as (_ & _ & Hs).
  change (Py.lstrip "/" ("/static/images/" +:+ n))
    with ("static" +:+ String "/" ("images" +:+ String "/" n)).
  unfold Pathlib.joinpath, Pathlib.components.
  rewrite !split_app_sep, split_no_sep by done.
  apply plain_part_facts in Hn as (H1 & H2 & _).
  apply String.eqb_neq in H1, H2. simpl. rewrite H1, H2. simpl.
  unfold Backend.IMG_DIR, Backend.STATIC_DIR. by rewrite <- !app_assoc.
Qed.

End AfterUpload.

(** X10.  Read back through [delete_image], the url of a stored image leads
    to the path the image was written to: for the imageio service in either
    url scheme and for any [IMAGE_DIR], for the Pillow service under
    [static/images]. *)
Theorem stored_url_leads_to_file (cfg : Config) (n : string) :
  plain_part n = true ->
  Main.path_of_url cfg (Main.build_public_url cfg (Main.IMAGE_DIR cfg ++ [n])) =
    Some (Main.IMAGE_DIR cfg ++ [n]) /\
  Pathlib.joinpath (BASE_DIR cfg) (Py.lstrip "/" ("/static/images/" +:+ n)) =
    Backend.IMG_DIR cfg ++ [n].
Proof.
  intros Hn. split.
  - by apply main_path_of_url_build.
  - by apply backend_remove_path.
Qed.

Lemma stored_url_leads_to_file_witness :
  Main.path_of_url Sample.cfg_disk
    (Main.build_public_url Sample.cfg_disk
       (Main.IMAGE_DIR Sample.cfg_disk ++ ["a0f3c.png"])) =
  Some ["/"; "data"; "images"; "a0f3c.png"].
Proof.
  apply (proj1 (stored_url_leads_to_file Sample.cfg_disk "a0f3c.png" eq_refl)).
Defined.

(** X11.  After the upload of one file, the file endpoint answers the name
    [<id>.png] with the very bytes the conversion produced, whether the
    image directory lies under [static] or not. *)
Theorem upload_then_serve (cfg : Config) (env : Env) (io : ImageIO)
    (f : UploadFile) (w w' : World) (item : ImageItem) :
  Main.upload cfg env io [f] w = (Return [item], w') ->
  Py.contains (id item) "/" = false ->
  exists png fmt,
    Main.to_png_bytes io (content f) = Return (png, width item, height item, fmt) /\
    Main.serve_file cfg env (id item +:+ ".png") w' = (Return (png, "image/png"), w').
Proof.
  intros Hup Hid. apply main_upload_single, main_upload_one_inv in Hup.
  destruct Hup as (png & fmt & Hpng & _ & _ & _ & _ & _ & _ & _ & _ & Hf & _).
  exists png, fmt. split; [done|].
  unfold Main.serve_file. rewrite joinpath_plain by by apply png_name_plain.
  unfold visible. rewrite lookup_insert_ne.
  - fold (main_path cfg (id item)). by rewrite Hf, lookup_insert_eq.
  - intros H. by apply (db_path_not_image cfg (id item)).
Qed.

Lemma upload_then_serve_witness :
  exists png fmt,
    Main.to_png_bytes Sample.io (content Sample.icon) = Return (png, 3, 2, fmt) /\
    Main.serve_file Sample.cfg_disk Sample.env "a0f3c.png" Sample.after_icon_disk =
      (Return (png, "image/png"), Sample.after_icon_disk).
Proof.
  apply (upload_then_serve Sample.cfg_disk Sample.env Sample.io Sample.icon
           Sample.empty_world Sample.after_icon_disk Sample.icon_record_disk);
    reflexivity.
Defined.

(** X12.  Deleting the record of a file just uploaded, on a disk that does
    not refuse the unlink, undoes the upload: the table is as before and the
    image file is gone.  Imageio service, either url scheme. *)
Theorem upload_then_delete (cfg : Config) (env : Env) (io : ImageIO)
    (f : UploadFile) (w w' : World) (item : ImageItem) :
  Main.upload cfg env io [f] w = (Return [item], w') ->
  Py.contains (id item) "/" = false ->
  unlink_faults env (main_path cfg (id item)) = false ->
  exists w'',
    Main.delete_image cfg env (id item) w' = (Return true, w'') /\
    table w'' = table w /\
    files w'' = delete (main_path cfg (id item)) (files w).
Proof.
  intros Hup Hid Hun. apply main_upload_single, main_upload_one_inv in Hup.
  destruct Hup as (png & fmt & _ & _ & _ & _ & Hurl & _ & _ & Hnew & Ht & Hf & _).
  unfold Main.delete_image, bind, db_table, db_delete.
  rewrite Ht, select_url_last by done.
  unfold Main.remove_file. rewrite Hurl. unfold main_path.
  rewrite main_path_of_url_build by by apply png_name_plain.
  fold (main_path cfg (id item)).
  rewrite (unlink_present env _ _ png) by (simpl; by rewrite ?Hf, ?lookup_insert_eq).
  eexists. split; [reflexivity|]. simpl.
  by rewrite Ht, delete_where_id_last, Hf, delete_insert_eq.
Qed.

Lemma upload_then_delete_witness :
  exists w'',
    Main.delete_image Sample.cfg Sample.env "a0f3c" Sample.after_icon =
      (Return true, w'') /\
    table w'' = [] /\
    files w'' = delete (main_path Sample.cfg "a0f3c") ∅.
Proof.
  apply (upload_then_delete Sample.cfg Sample.env Sample.io Sample.icon
           Sample.empty_world Sample.after_icon Sample.icon_record);
    reflexivity.
Defined.

(** X13.  The same for the Pillow service: the delete that follows the
    upload of one file restores the table and removes the file under
    [static/images]. *)
Theorem backend_upload_then_delete (cfg : Config) (env : Env) (pil : Pillow)
    (f : UploadFile) (w w' : World) (item : ImageItem) :
  Backend.upload cfg env pil [f] w = (Return [item], w') ->
  Py.contains (id item) "/" = false ->
  unlink_faults env (backend_path cfg (id item)) = false ->
  exists w'',
    Backend.delete_image cfg env (id item) w' = (Return true, w'') /\
    table w'' = table w /\
    files w'' = delete (backend_path cfg (id item)) (files w).
Proof.
  intros Hup Hid Hun. apply backend_upload_single, backend_upload_one_inv in Hup.
  destruct Hup as (png & fmt & _ & _ & _ & _ & Hurl & _ & _ & Hnew & Ht & Hf & _).
  unfold Backend.delete_image, bind, db_table, db_delete.
  rewrite Ht, select_url_last by done.
  unfold Backend.remove_file. rewrite Hurl.
  rewrite backend_remove_path by by apply png_name_plain.
  fold (backend_path cfg (id item)).
  rewrite (unlink_present env _ _ png) by (simpl; by rewrite ?Hf, ?lookup_insert_eq).
  eexists. split; [reflexivity|]. simpl.
  by rewrite Ht, delete_where_id_last, Hf, delete_insert_eq.
Qed.

Lemma backend_upload_then_delete_witness :
  exists w'',
    Backend.delete_image Sample.cfg Sample.env "a0f3c" Sample.after_icon_pil =
      (Return true, w'') /\
    table w'' = [] /\
    files w'' = delete (backend_path Sample.cfg "a0f3c") ∅.
Proof.
  apply (backend_upload_then_delete Sample.cfg Sample.env Sample.pil Sample.icon
           Sample.empty_world Sample.after_icon_pil Sample.icon_record);
    reflexivity.
Defined.

(** ** A batch of valid images, Pillow service *)
Section ValidBatchPillow.
Context (cfg : Config) (env : Env) (pil : Pillow).

Lemma backend_upload_one_valid (f : UploadFile) (w : World) :
  Py.truthy (Backend.ext_of (filename f)) = true ->
  valid_pil_image pil f ->
  write_faults env (backend_path cfg (uuid4_hex env (tick w))) = false ->
  uuid4_hex env (tick w) ∉ List.map id (table w) ->
  exists item w',
    Backend.upload_one cfg env pil f w = (Return (Some item), w') /\
    describes_pil pil f item /\ id item = uuid4_hex env (tick w) /\
    table w' = table w ++ [item] /\ tick w' = S (tick w).
Proof.
  intros Hext (im0 & im & png & Ho & Hc & Hs) Hdisk Hfresh.
  unfold Backend.upload_one. rewrite backend_ext_of_base_name, Hext. simpl negb.
  unfold try_except, bind, Backend.store_image, bind, lift, Backend.to_png_bytes.
  rewrite Ho, Hc, Hs.
  unfold uuid4, write_file, utcnow, db_insert, Sql.insert. simpl.
  unfold backend_path in Hdisk. rewrite Hdisk. simpl.
  rewrite existsb_id_fresh by done.
  eexists _, _. split; [reflexivity|]. simpl.
  repeat split. exists im0. split; [done|].
  unfold Image_convert in Hc.
  destruct (convert_pixels pil "RGBA" im0); [|done]. by injection Hc as <-.
Qed.

Lemma backend_loop_valid (fs : list UploadFile) :
  forall (acc : list ImageItem) (w : World),
  Forall (fun f => Py.truthy (Backend.ext_of (filename f)) = true) fs ->
  Forall (valid_pil_image pil) fs ->
  Forall (fun i => write_faults env (backend_path cfg i) = false)
         (next_ids env (tick w) (length fs)) ->
  fresh_ids env w (length fs) ->
  exists out w',
    Backend.upload_loop cfg env pil fs acc w = (Return (acc ++ out), w') /\
    Forall2 (describes_pil pil) fs out /\
    table w' = table w ++ out /\
    List.map id out = next_ids env (tick w) (length fs).
Proof.
  induction fs as [|f fs IH]; intros acc w Hext Hval Hdisk [Hnd Hnew].
  - exists [], w. by rewrite !app_nil_r.
  - simpl in Hdisk, Hnd, Hnew.
    apply Forall_cons in Hext as [Hext1 Hext], Hval as [Hval1 Hval],
      Hdisk as [Hdisk1 Hdisk], Hnew as [Hnew1 Hnew].
    apply NoDup_cons in Hnd as [Hnd1 Hnd].
    destruct (backend_upload_one_valid f w Hext1 Hval1 Hdisk1 Hnew1)
      as (item & w1 & H1 & Hdesc & Hid & Htab & Htick).
    rewrite (backend_loop_step _ _ _ _ _ _ _ _ _ H1).
    destruct (IH (acc ++ [item]) w1) as (out & w' & Hloop & Hall & Htab' & Hids);
      [done|done|by rewrite Htick| |].
    { split; rewrite Htick; [done|]. rewrite Htab, map_app.
      apply Forall_forall. intros i Hi. rewrite elem_of_app.
      intros [Hin|Hin%list_elem_of_singleton].
      - by apply (proj1 (Forall_forall _ _) Hnew i Hi).
      - simpl in Hin. congruence. }
    exists (item :: out), w'. repeat split.
    + by rewrite Hloop, <- app_assoc.
    + by constructor.
    + by rewrite Htab', Htab, <- app_assoc.
    + simpl. by rewrite Hid, Hids, Htick.
Qed.

End ValidBatchPillow.

(** X14.  Pillow service: a non-empty batch of files with supported names
    that the library opens, converts to RGBA and saves, on a disk that
    accepts the writes and with fresh identifiers, yields one record per
    file in submission order.  Each record has the base name of its file,
    the size of the opened image, the url [/static/images/<id>.png], and
    the identifiers are the ones drawn, in the order drawn. *)
Theorem backend_upload_valid_batch (cfg : Config) (env : Env) (pil : Pillow)
    (fs : list UploadFile) (w : World) :
  fs <> [] ->
  Forall (fun f => Py.truthy (Backend.ext_of (filename f)) = true) fs ->
  Forall (valid_pil_image pil) fs ->
  Forall (fun i => write_faults env (backend_path cfg i) = false)
         (next_ids env (tick w) (length fs)) ->
  fresh_ids env w (length fs) ->
  exists out w',
    Backend.upload cfg env pil fs w = (Return out, w') /\
    Forall2 (describes_pil pil) fs out /\
    table w' = table w ++ out /\
    List.map id out = next_ids env (tick w) (length fs).
Proof.
  intros Hne Hext Hval Hdisk Hfresh.
  destruct (backend_loop_valid cfg env pil fs [] w Hext Hval Hdisk Hfresh)
    as (out & w' & Hloop & Hall & Htab & Hids).
  exists out, w'. repeat split; [|done..].
  by destruct fs.
Qed.

Lemma backend_upload_valid_batch_witness :
  exists out w',
    Backend.upload Sample.cfg Sample.env Sample.pil [Sample.icon; Sample.photo]
      Sample.empty_world = (Return out, w') /\
    Forall2 (describes_pil Sample.pil) [Sample.icon; Sample.photo] out /\
    table w' = table Sample.empty_world ++ out /\
    List.map id out = ["a0f3c"; "b0f3c"].
Proof.
  apply (backend_upload_valid_batch Sample.cfg Sample.env Sample.pil
           [Sample.icon; Sample.photo] Sample.empty_world).
  - discriminate.
  - repeat constructor.
  - repeat constructor; eexists _, _, _; repeat split; reflexivity.
  - repeat constructor.
  - split.
    + apply (bool_decide_unpack _). vm_compute. exact I.
    + repeat constructor; apply not_elem_of_nil.
Defined.

(** ** More on listing *)
Section ListingMore.

Lemma startswith_prefix (t p : string) :
  Py.startswith t p = true -> exists post, t = p +:+ post.
Proof.
  revert t. induction p as [|b p IH]; intros t H; [by exists t|].
  destruct t as [|a t]; [done|]. simpl in H.
  apply andb_true_iff in H as [Hab Ht]. apply Ascii.eqb_eq in Hab as ->.
  destruct (IH t Ht) as [post ->]. by exists post.
Qed.

Lemma contains_split (t sub : string) :
  Py.contains t sub = true -> exists pre post, t = pre +:+ sub +:+ post.
Proof.
  induction t as [|c t IH]; simpl.
  - rewrite orb_false_r. intros [post H]%startswith_prefix. by exists "", post.
  - intros [[post H]%startswith_prefix | [pre [post ->]]%IH]%orb_true_iff.
    + by exists "", post.
    + by exists (String c pre), post.
Qed.

(** A pattern matches the text that spells it out, whatever follows. *)
Lemma match_itself (q rest : string) :
  Sql.match_from (q +:+ "%") (q +:+ rest) = true.
Proof.
  induction q as [|c q IH]; [apply match_only_percent|].
  rewrite !append_cons.
  destruct (Ascii.eqb_spec c "%") as [->|H1].
  - rewrite match_percent. apply existsb_exists. exists (q +:+ rest).
    split; [|exact IH]. simpl. right. apply char_starts_head.
  - destruct (Ascii.eqb_spec c "_") as [->|H2]; [exact IH|].
    rewrite match_literal by done. by rewrite Ascii.eqb_refl, IH.
Qed.

(** [%] skips what comes before a tail that starts at a character. *)
Lemma match_skip (p pre t : string) :
  In t (Sql.char_starts false (pre +:+ t)) ->
  Sql.match_from p t = true -> Sql.match_from (String "%" p) (pre +:+ t) = true.
Proof.
  intros Hin H. rewrite match_percent. apply existsb_exists. by exists t.
Qed.

Lemma like_filter_contains (s : string) (r : ImageItem) :
  Py.truthy s = true -> ascii_text s = true ->
  Py.contains (Py.lower (Sql.until_nul (name r))) (Py.lower s) = true ->
  like_filter s r = true.
Proof.
  intros Hs Ha (pre & post & H)%contains_split. unfold like_filter, Sql.LIKE, Sql.LOWER.
  rewrite until_nul_ascii by by apply pattern_ascii.
  rewrite until_nul_lower, H.
  change ("%" +:+ Py.lower s +:+ "%") with (String "%" (Py.lower s +:+ "%")).
  apply match_skip; [|apply match_itself].
  destruct s as [|c s]; [done|]. simpl in Ha. apply andb_true_iff in Ha as [Hc _].
  apply ascii_char_facts in Hc as (_ & _ & _ & Hc).
  apply ascii_char_facts in Hc as (_ & Hc & _).
  simpl Py.lower. rewrite append_cons. by apply char_starts_tail.
Qed.

Lemma insert_desc_front (r : ImageItem) (l : list ImageItem) :
  Forall (fun y => String.leb (created_at y) (created_at r) = true) l ->
  Sql.insert_desc r l = r :: l.
Proof. destruct 1 as [|y l Hy _]; simpl; [done|]. by rewrite Hy. Qed.

Lemma filter_Forall_bool (P : ImageItem -> Prop) (Q : ImageItem -> bool)
    (l : list ImageItem) :
  Forall P l -> Forall P (List.filter Q l).
Proof.
  induction 1 as [|y l Hy _ IH]; simpl; [constructor|].
  destruct (Q y); [by constructor|done].
Qed.

(** Filtering rows and inserting one in date order commute on a list that
    is already in date order. *)
Lemma insert_desc_filter (Q : ImageItem -> bool) (r : ImageItem)
    (l : list ImageItem) :
  newest_first l ->
  List.filter Q (Sql.insert_desc r l) =
  if Q r then Sql.insert_desc r (List.filter Q l) else List.filter Q l.
Proof.
  unfold newest_first. induction 1 as [|y l Hl IH Hy]; simpl.
  - by destruct (Q r).
  - destruct (String.leb (created_at y) (created_at r)) eqn:E.
    + simpl. destruct (Q r); [|done].
      rewrite insert_desc_front; [done|].
      apply (filter_Forall_bool _ Q (y :: l)). constructor; [done|].
      eapply Forall_impl; [exact Hy|]. simpl. intros z Hz.
      by apply (leb_trans _ (created_at y)).
    + simpl. rewrite IH. destruct (Q y), (Q r); simpl; by rewrite ?E.
Qed.

Lemma order_by_filter (Q : ImageItem -> bool) (l : list ImageItem) :
  Sql.order_by_created_at_desc (List.filter Q l) =
  List.filter Q (Sql.order_by_created_at_desc l).
Proof.
  induction l as [|r l IH]; simpl; [done|].
  rewrite insert_desc_filter by apply order_by_sorted.
  destruct (Q r); simpl; by rewrite IH.
Qed.

Lemma filter_filter_comm (P Q : ImageItem -> bool) (l : list ImageItem) :
  List.filter P (List.filter Q l) = List.filter Q (List.filter P l).
Proof.
  induction l as [|r l IH]; simpl; [done|].
  destruct (Q r) eqn:EQ, (P r) eqn:EP; simpl; rewrite ?EQ, ?EP, IH; done.
Qed.

(** The rows a query selects from a table without the rows of id [i] are
    the rows it selects from the table, without those rows; a pattern LIKE
    accepted before the delete it accepts after it. *)
Lemma select_like_delete (tbl : list ImageItem) (like i : string)
    (out : list ImageItem) :
  Sql.select_like tbl like = Return out ->
  Sql.select_like (List.filter (fun r => negb (String.eqb (id r) i)) tbl) like =
  Return (List.filter (fun r => negb (String.eqb (id r) i)) out).
Proof.
  unfold Sql.select_like. destruct tbl as [|r tbl]; [by intros [= <-]|].
  destruct (Sql.MAX_LIKE_PATTERN_LENGTH <? _)%N; [done|].
  remember (r :: tbl) as rows eqn:Hrows. clear Hrows. intros [= <-].
  rewrite <- order_by_filter,
    (filter_filter_comm (fun x => negb (String.eqb (id x) i))).
  by destruct (List.filter _ rows).
Qed.

(** A listing of the table without the rows of id [i] is the listing of
    the table, without those rows. *)
Lemma list_images_after_delete (search : option string) (w w' : World)
    (i : string) (out : list ImageItem) :
  table w' = Sql.delete_where_id (table w) i ->
  list_images search w = (Return out, w) ->
  list_images search w' =
  (Return (List.filter (fun r => negb (String.eqb (id r) i)) out), w').
Proof.
  intros Ht. unfold list_images, bind, db_table, ret, lift. rewrite Ht.
  unfold Sql.delete_where_id, Sql.select_all.
  destruct search as [s|]; [destruct (Py.truthy s)|].
  - destruct (Sql.select_like (table w) _) as [rows|e] eqn:E; [|done].
    intros [= <-]. by rewrite (select_like_delete _ _ i _ E).
  - intros [= <-]. by rewrite order_by_filter.
  - intros [= <-]. by rewrite order_by_filter.
Qed.

Lemma select_url_other (tbl : list ImageItem) (i j : string) :
  i <> j -> Sql.select_url (Sql.delete_where_id tbl i) j = Sql.select_url tbl j.
Proof.
  intros Hne. induction tbl as [|r tbl IH]; simpl; [done|].
  destruct (String.eqb_spec (id r) i) as [Hi|Hi]; simpl.
  - destruct (String.eqb_spec (id r) j) as [Hj|_]; [congruence|done].
  - by rewrite IH.
Qed.

End ListingMore.

(** X15.  For a non-empty search of ASCII text without NUL, at most 49998
    bytes long, whichever of [%] and [_] it holds: a row whose name, read
    up to its first NUL, contains the search text, ASCII letter case aside,
    is in the listing.  The wildcards of LIKE can add rows, they never hide
    one. *)
Theorem list_images_search_complete (s : string) (w : World) (r : ImageItem) :
  Py.truthy s = true -> ascii_text s = true ->
  (N.of_nat (String.length s) + 2 <= Sql.MAX_LIKE_PATTERN_LENGTH)%N ->
  r ∈ table w ->
  Py.contains (Py.lower (Sql.until_nul (name r))) (Py.lower s) = true ->
  exists out, list_images (Some s) w = (Return out, w) /\ r ∈ out.
Proof.
  intros Hs Ha Hlen Hin Hc. unfold list_images, bind, db_table, ret, lift.
  rewrite Hs, select_like_short by done.
  eexists. split; [reflexivity|].
  rewrite order_by_perm. apply list_elem_of_In, filter_In.
  split; [by apply list_elem_of_In|]. by apply like_filter_contains.
Qed.

(** X16.  Listing after a delete is listing before it with the deleted id
    taken out: same rows otherwise, same order, for every search.  The
    lookup of any other id is as before.  Both services. *)
Theorem delete_then_list (cfg : Config) (env : Env) (i : string)
    (w w' : World) (search : option string) (out : list ImageItem) :
  Main.delete_image cfg env i w = (Return true, w') \/
  Backend.delete_image cfg env i w = (Return true, w') ->
  list_images search w = (Return out, w) ->
  list_images search w' =
    (Return (List.filter (fun r => negb (String.eqb (id r) i)) out), w') /\
  forall j, j <> i -> Sql.select_url (table w') j = Sql.select_url (table w) j.
Proof.
  intros Hdel Hlist.
  assert (table w' = Sql.delete_where_id (table w) i) as Ht.
  { destruct (decide (i ∈ List.map id (table w))) as [Hin|Hout].
    - destruct Hdel as [H|H].
      + destruct (main_delete_known cfg env i w Hin) as (w0 & H0 & Ht & _).
        rewrite H0 in H. by injection H as <-.
      + destruct (backend_delete_known cfg env i w Hin) as (w0 & H0 & Ht & _).
        rewrite H0 in H. by injection H as <-.
    - destruct Hdel as [H|H].
      + by rewrite main_delete_unknown in H.
      + by rewrite backend_delete_unknown in H. }
  split; [by apply (list_images_after_delete search w)|].
  intros j Hj. rewrite Ht. by apply select_url_other.
Qed.


Lemma list_images_search_complete_witness :
  exists out,
    list_images (Some "WALL_") Sample.stocked = (Return out, Sample.stocked) /\
    Sample.row_b ∈ out.
Proof.
  apply (list_images_search_complete "WALL_" Sample.stocked Sample.row_b).
  - reflexivity.
  - reflexivity.
  - vm_compute. discriminate.
  - apply list_elem_of_In. simpl. auto.
  - reflexivity.
Defined.

Lemma delete_then_list_witness :
  list_images None (snd (Main.delete_image Sample.cfg Sample.env "a0f3c"
                           Sample.stocked)) =
  (Return [Sample.row_b],
   snd (Main.delete_image Sample.cfg Sample.env "a0f3c" Sample.stocked)).
Proof.
  apply (proj1 (delete_then_list Sample.cfg Sample.env "a0f3c" Sample.stocked
                  (snd (Main.delete_image Sample.cfg Sample.env "a0f3c"
                          Sample.stocked))
                  None [Sample.row_b; Sample.row_a]
                  (or_introl eq_refl) eq_refl)).
Defined.

(** ** Identifier collisions and batches in parts *)
Section Collisions.
Context (cfg : Config) (env : Env) (io : ImageIO) (pil : Pillow).

Lemma existsb_id_present (tbl : list ImageItem) (i : string) :
  i ∈ List.map id tbl ->
  List.existsb (fun x => String.eqb (id x) i) tbl = true.
Proof.
  intros Hin. destruct (List.existsb _ tbl) eqn:E; [done|].
  by apply existsb_id_taken in E.
Qed.

Lemma main_loop_acc (fs : list UploadFile) :
  forall (acc : list ImageItem) (w : World),
  exists out w',
    Main.upload_loop cfg env io fs [] w = (Return out, w') /\
    Main.upload_loop cfg env io fs acc w = (Return (acc ++ out), w').
Proof.
  induction fs as [|f fs IH]; intros acc w.
  - exists [], w. by rewrite app_nil_r.
  - destruct (main_upload_one_returns cfg env io f w) as (r & w1 & H1).
    rewrite !(main_loop_step _ _ _ _ _ _ _ _ _ H1).
    destruct r as [item|]; cbn [app].
    + destruct (IH [item] w1) as (out & w' & Ha & Hb).
      destruct (IH (acc ++ [item]) w1) as (out' & w'' & Ha' & Hb').
      rewrite Ha in Ha'. injection Ha' as <- <-.
      exists (item :: out), w'. split; [by rewrite Hb|].
      by rewrite Hb', <- app_assoc.
    + apply IH.
Qed.

Lemma backend_loop_acc (fs : list UploadFile) :
  forall (acc : list ImageItem) (w : World),
  exists out w',
    Backend.upload_loop cfg env pil fs [] w = (Return out, w') /\
    Backend.upload_loop cfg env pil fs acc w = (Return (acc ++ out), w').
Proof.
  induction fs as [|f fs IH]; intros acc w.
  - exists [], w. by rewrite app_nil_r.
  - destruct (backend_upload_one_returns cfg env pil f w) as (r & w1 & H1).
    rewrite !(backend_loop_step _ _ _ _ _ _ _ _ _ H1).
    destruct r as [item|]; cbn [app].
    + destruct (IH [item] w1) as (out & w' & Ha & Hb).
      destruct (IH (acc ++ [item]) w1) as (out' & w'' & Ha' & Hb').
      rewrite Ha in Ha'. injection Ha' as <- <-.
      exists (item :: out), w'. split; [by rewrite Hb|].
      by rewrite Hb', <- app_assoc.
    + apply IH.
Qed.

Lemma main_loop_app (fs1 fs2 : list UploadFile) :
  forall (acc out1 : list ImageItem) (w w1 : World),
  Main.upload_loop cfg env io fs1 acc w = (Return out1, w1) ->
  Main.upload_loop cfg env io (fs1 ++ fs2) acc w =
  Main.upload_loop cfg env io fs2 out1 w1.
Proof.
  induction fs1 as [|f fs1 IH]; intros acc out1 w w1 H.
  - by injection H as <- <-.
  - destruct (main_upload_one_returns cfg env io f w) as (r & w0 & H0).
    rewrite <- app_comm_cons.
    rewrite (main_loop_step _ _ _ _ _ _ _ _ _ H0) in H.
    rewrite (main_loop_step _ _ _ _ _ _ _ _ _ H0). by apply IH.
Qed.

Lemma backend_loop_app (fs1 fs2 : list UploadFile) :
  forall (acc out1 : list ImageItem) (w w1 : World),
  Backend.upload_loop cfg env pil fs1 acc w = (Return out1, w1) ->
  Backend.upload_loop cfg env pil (fs1 ++ fs2) acc w =
  Backend.upload_loop cfg env pil fs2 out1 w1.
Proof.
  induction fs1 as [|f fs1 IH]; intros acc out1 w w1 H.
  - by injection H as <- <-.
  - destruct (backend_upload_one_returns cfg env pil f w) as (r & w0 & H0).
    rewrite <- app_comm_cons.
    rewrite (backend_loop_step _ _ _ _ _ _ _ _ _ H0) in H.
    rewrite (backend_loop_step _ _ _ _ _ _ _ _ _ H0). by apply IH.
Qed.

End Collisions.

(** X17.  When the identifier drawn for a valid image is already a key of
    the table, the file is skipped and the table is unchanged, but the
    image has been written by then: the file under that identifier now
    holds the new bytes, and the old record still points to it.  Both
    services write before they insert. *)
Theorem upload_one_identifier_taken (cfg : Config) (env : Env) (io : ImageIO)
    (pil : Pillow) (f : UploadFile) (w : World) (png : bytes) (wd ht : nat)
    (fmt : string) :
  uuid4_hex env (tick w) ∈ List.map id (table w) ->
  (Py.truthy (Main.ext_of (filename f)) = true ->
   Main.to_png_bytes io (content f) = Return (png, wd, ht, fmt) ->
   write_faults env (main_path cfg (uuid4_hex env (tick w))) = false ->
   exists w',
     Main.upload_one cfg env io f w = (Return None, w') /\
     table w' = table w /\
     files w' = <[main_path cfg (uuid4_hex env (tick w)) := png]> (files w)) /\
  (Py.truthy (Backend.ext_of (filename f)) = true ->
   Backend.to_png_bytes pil (content f) = Return (png, wd, ht, fmt) ->
   write_faults env (backend_path cfg (uuid4_hex env (tick w))) = false ->
   exists w',
     Backend.upload_one cfg env pil f w = (Return None, w') /\
     table w' = table w /\
     files w' = <[backend_path cfg (uuid4_hex env (tick w)) := png]> (files w)).
Proof.
  intros Hin. apply existsb_id_present in Hin. split; intros Hext Hpng Hw.
  - unfold Main.upload_one. rewrite main_ext_of_base_name, Hext. simpl negb.
    unfold try_except, bind, Main.store_image, bind, lift. rewrite Hpng.
    unfold uuid4, write_file, utcnow, db_insert, Sql.insert. simpl.
    unfold main_path in Hw. rewrite Hw. simpl. rewrite Hin.
    by eexists.
  - unfold Backend.upload_one. rewrite backend_ext_of_base_name, Hext. simpl negb.
    unfold try_except, bind, Backend.store_image, bind, lift. rewrite Hpng.
    unfold uuid4, write_file, utcnow, db_insert, Sql.insert. simpl.
    unfold backend_path in Hw. rewrite Hw. simpl. rewrite Hin.
    by eexists.
Qed.

Lemma upload_one_identifier_taken_witness :
  exists w',
    Main.upload_one Sample.cfg Sample.env Sample.io Sample.photo
      (mkWorld [Sample.row_a] ∅ 0) = (Return None, w') /\
    table w' = [Sample.row_a] /\
    files w' = <[main_path Sample.cfg "a0f3c" :=
                   String.list_byte_of_string "PNG" ++
                   [Byte.x02; Byte.x03; Byte.x03; Byte.xff]]> ∅.
Proof.
  apply (proj1 (upload_one_identifier_taken Sample.cfg Sample.env Sample.io
                  Sample.pil Sample.photo (mkWorld [Sample.row_a] ∅ 0)
                  _ 3 2 "unknown"
                  ltac:(apply list_elem_of_In; simpl; auto)));
    reflexivity.
Defined.

(** X18.  A batch is answered as its parts are, one after the other: the
    records of the first part followed by those of the second, and the
    world the second part leaves.  Both services. *)
Theorem upload_in_parts (cfg : Config) (env : Env) (io : ImageIO) (pil : Pillow)
    (fs1 fs2 : list UploadFile) (w w1 w2 : World) (out1 out2 : list ImageItem) :
  (Main.upload cfg env io fs1 w = (Return out1, w1) ->
   Main.upload cfg env io fs2 w1 = (Return out2, w2) ->
   Main.upload cfg env io (fs1 ++ fs2) w = (Return (out1 ++ out2), w2)) /\
  (Backend.upload cfg env pil fs1 w = (Return out1, w1) ->
   Backend.upload cfg env pil fs2 w1 = (Return out2, w2) ->
   Backend.upload cfg env pil (fs1 ++ fs2) w = (Return (out1 ++ out2), w2)).
Proof.
  split; intros H1 H2.
  - destruct fs1 as [|f1 fs1]; [done|]. destruct fs2 as [|f2 fs2]; [done|].
    unfold Main.upload in *. rewrite <- app_comm_cons.
    rewrite (app_comm_cons fs1 _ f1), (main_loop_app cfg env io _ _ _ _ _ _ H1).
    destruct (main_loop_acc cfg env io (f2 :: fs2) out1 w1) as (o & w' & Ha & Hb).
    rewrite Ha in H2. injection H2 as <- <-. exact Hb.
  - destruct fs1 as [|f1 fs1]; [done|]. destruct fs2 as [|f2 fs2]; [done|].
    unfold Backend.upload in *. rewrite <- app_comm_cons.
    rewrite (app_comm_cons fs1 _ f1), (backend_loop_app cfg env pil _ _ _ _ _ _ H1).
    destruct (backend_loop_acc cfg env pil (f2 :: fs2) out1 w1) as (o & w' & Ha & Hb).
    rewrite Ha in H2. injection H2 as <- <-. exact Hb.
Qed.

Lemma upload_in_parts_witness :
  Main.upload Sample.cfg Sample.env Sample.io ([Sample.icon] ++ [Sample.photo])
    Sample.empty_world =
  (Return ([Sample.icon_record] ++
           [mkItem "b0f3c" "photo.jpeg" 3 2 "/static/images/b0f3c.png"
                   "2024-05-03T10:00:00"]),
   snd (Main.upload Sample.cfg Sample.env Sample.io [Sample.photo]
          Sample.after_icon)).
Proof.
  apply (proj1 (upload_in_parts Sample.cfg Sample.env Sample.io Sample.pil
                  [Sample.icon] [Sample.photo] Sample.empty_world
                  Sample.after_icon _ _ _));
    reflexivity.
Defined.

Lemma list_images_all_witness :
  exists out,
    list_images (Some "") Sample.stocked = (Return out, Sample.stocked) /\
    out ≡ₚ table Sample.stocked /\ newest_first out.
Proof. apply (list_images_all (Some "") Sample.stocked). by right. Defined.

Lemma list_images_plain_search_witness :
  exists out,
    list_images (Some "STONE") Sample.stocked = (Return out, Sample.stocked) /\
    out ≡ₚ List.filter
             (fun r => Py.contains (Py.lower (Sql.until_nul (name r)))
                                   (Py.lower "STONE"))
             (table Sample.stocked) /\
    newest_first out.
Proof.
  apply (list_images_plain_search "STONE" Sample.stocked);
    [reflexivity..|vm_compute; discriminate].
Defined.
